(** * GCP project health agent: a shallow embedding and its properties

    The development follows the three source files:
    - [health_agent.py]: the aggregate fetcher, the instance lister and the
      per-instance joiner (module [HealthAgent]);
    - [main.py]: the command-line report (module [Main]);
    - [app.py]: the web form (module [App]).

    The two upstream services (Cloud Monitoring, Compute Engine) and the
    clock are the environment.  A [World] fixes what they answer during
    one run: the clock reads one value, the monitoring service is a
    function from the request to either the exception raised or the list
    of time series, and an aggregated instance listing of a project is the
    finite sequence of pages the pagination loop receives (an endless
    sequence of continuation tokens has no representation).  The two
    places that list instances get their own listings, and a call can
    raise an exception of any class.

    Python values are modelled as follows: [float] is Rocq's binary64
    [float], with ['%.2f'] and [round(x, 2)] computed exactly; [str] is
    [string], one character per byte; a [dict] is an association list in
    insertion order; a raised exception is the [Raise] case of [outcome];
    [print] appends to the standard output of a [Console]. *)

From Stdlib Require Import ZArith List String Ascii Bool PeanoNat.
From Stdlib Require Import Floats.PrimFloat Floats.SpecFloat Floats.FloatOps.
From Stdlib Require Import Numbers.DecimalString.
From Stdlib Require Import Sorting.Permutation Sorting.Sorted Lia.
Import ListNotations.

Set Implicit Arguments.

(* Decimal float literals denote the nearest binary64 value, as in Python. *)
Set Warnings "-inexact-float".

(** ** The Python builtins the program uses *)

Module Py.

(** Exceptions, by the two classes the program names in its handlers;
    [OtherError] is an exception of neither class (a [RetryError], a
    [DefaultCredentialsError], a transport error...).  [str(e)] is the
    message. *)
Inductive exn : Type :=
| GoogleAPICallError (msg : string)
| HttpError (msg : string)
| OtherError (msg : string).

Definition str_exn (e : exn) : string :=
  match e with
  | GoogleAPICallError msg => msg
  | HttpError msg => msg
  | OtherError msg => msg
  end.

Inductive outcome (A : Type) : Type :=
| Ok (a : A)
| Raise (e : exn).
Arguments Ok {A} a.
Arguments Raise {A} e.

Definition bind {A B} (m : outcome A) (k : A -> outcome B) : outcome B :=
  match m with
  | Ok a => k a
  | Raise e => Raise e
  end.

(** *** Strings *)

(** [s.split(sep)] for a one-character separator. *)
Fixpoint split (sep : ascii) (s : string) : list string :=
  match s with
  | EmptyString => [EmptyString]
  | String c s' =>
      if Ascii.eqb c sep then EmptyString :: split sep s'
      else match split sep s' with
           | h :: t => String c h :: t
           | [] => [String c EmptyString]
           end
  end.

(** [s.split("/")[-1]] *)
Definition last_segment (s : string) : string :=
  last (split "/"%char s) EmptyString.

Fixpoint spaces (n : nat) : string :=
  match n with
  | O => EmptyString
  | S n' => String " "%char (spaces n')
  end.

(** [s[:n]] *)
Definition take (n : nat) (s : string) : string := substring 0 n s.

(** [f"{s:n}"]: left-aligned in a field of width [n]. *)
Definition ljust (n : nat) (s : string) : string :=
  (s ++ spaces (n - String.length s))%string.

(** [f"{s:>n}"]: right-aligned in a field of width [n]. *)
Definition rjust (n : nat) (s : string) : string :=
  (spaces (n - String.length s) ++ s)%string.

Definition str_nat (n : nat) : string :=
  NilZero.string_of_uint (Nat.to_uint n).

Definition str_Z (z : Z) : string :=
  NilZero.string_of_uint (N.to_uint (Z.to_N z)).

(** *** Floats *)

(** [x == x], false exactly for not-a-number. *)
Definition self_equal (x : float) : bool := PrimFloat.eqb x x.

(** Nearest integer to [num / den], ties to even ([0 <= num], [0 < den]). *)
Definition div_half_even (num den : Z) : Z :=
  let q := (num / den)%Z in
  let r := (num mod den)%Z in
  match (2 * r ?= den)%Z with
  | Lt => q
  | Gt => (q + 1)%Z
  | Eq => if Z.even q then q else (q + 1)%Z
  end.

(** Nearest integer to [m * 2^e * 100], ties to even: the digits that a
    correctly rounded conversion to two decimals produces. *)
Definition hundredths (m : positive) (e : Z) : Z :=
  if (0 <=? e)%Z then (Zpos m * 2 ^ e * 100)%Z
  else div_half_even (Zpos m * 100) (2 ^ (- e)).

Definition sign_str (s : bool) : string :=
  if s then "-"%string else EmptyString.

Definition two_digits (n : Z) : string :=
  ((if (n <? 10)%Z then "0"%string else EmptyString) ++ str_Z n)%string.

(** ['%.2f' % x] and [f"{x:.2f}"] *)
Definition format_2f (x : float) : string :=
  match Prim2SF x with
  | S754_nan => "nan"%string
  | S754_infinity s => (sign_str s ++ "inf")%string
  | S754_zero s => (sign_str s ++ "0.00")%string
  | S754_finite s m e =>
      let n := hundredths m e in
      (sign_str s ++ str_Z (n / 100) ++ "." ++ two_digits (n mod 100))%string
  end.

(** [round(x, 2)]: the double nearest to [x] rounded to two decimals;
    not-a-number, the infinities and the zeros round to themselves. *)
Definition round2 (x : float) : float :=
  match Prim2SF x with
  | S754_finite s m e =>
      let n := hundredths m e in
      let num := match n with
                 | Zpos p => S754_finite s p 0
                 | _ => S754_zero s
                 end in
      SF2Prim (SFdiv prec emax num (S754_finite false 100 0))
  | _ => x
  end.

(** *** Dictionaries, in insertion order *)

Section Dict.
Variables K V : Type.
Variable eqb : K -> K -> bool.

Definition dict : Type := list (K * V).

(** [d.get(k)] *)
Fixpoint get (d : dict) (k : K) : option V :=
  match d with
  | [] => None
  | (k', v) :: d' => if eqb k k' then Some v else get d' k
  end.

(** [d[k] = v]: a present key keeps its place, a new one goes last. *)
Fixpoint set (d : dict) (k : K) (v : V) : dict :=
  match d with
  | [] => [(k, v)]
  | (k', v') :: d' =>
      if eqb k k' then (k', v) :: d' else (k', v') :: set d' k v
  end.

Definition keys (d : dict) : list K := map fst d.
End Dict.

Definition option_eqb (a b : option string) : bool :=
  match a, b with
  | Some x, Some y => String.eqb x y
  | None, None => true
  | _, _ => false
  end.

Definition pair_eqb (a b : string * string) : bool :=
  String.eqb (fst a) (fst b) && String.eqb (snd a) (snd b).

(** *** [sorted(l, key=...)]: stable, by the strict order on the keys *)

Section Sorted.
Variables A K : Type.
Variable key : A -> K.
Variable lt : K -> K -> bool.

Fixpoint insert (x : A) (l : list A) : list A :=
  match l with
  | [] => [x]
  | y :: l' => if lt (key x) (key y) then x :: l else y :: insert x l'
  end.

Definition sorted (l : list A) : list A :=
  fold_left (fun acc x => insert x acc) l [].
End Sorted.

(** The order of Python on pairs of strings (tuples are compared
    lexicographically, strings by code point). *)
Definition pair_ltb (a b : string * string) : bool :=
  if String.eqb (fst a) (fst b) then String.ltb (snd a) (snd b)
  else String.ltb (fst a) (fst b).

End Py.

Import Py.


Declare Scope py_scope.
Delimit Scope py_scope with py.
Notation "x <- m ;; k" := (Py.bind m (fun x => k))
  (at level 61, m at next level, right associativity) : py_scope.
Open Scope string_scope.
Open Scope list_scope.
Open Scope py_scope.

(** ** health_agent.py *)

Module HealthAgent.

Definition ALIGN_SECONDS : Z := 600.

(** *** The monitoring service *)

Record Point : Type := { double_value : float }.

Record TimeSeries : Type := {
  resource_labels : dict string string;
  points : list Point
}.

Inductive Aligner : Type := ALIGN_MEAN.
Inductive Reducer : Type := REDUCE_MEAN.
Inductive TimeSeriesView : Type := FULL.

Record TimeInterval : Type := { start_time : Z; end_time : Z }.

Record Aggregation : Type := {
  alignment_period : Z;
  per_series_aligner : Aligner;
  cross_series_reducer : option Reducer
}.

Record ListTimeSeriesRequest : Type := {
  req_name : string;
  req_filter : string;
  req_interval : TimeInterval;
  req_view : TimeSeriesView;
  req_aggregation : Aggregation
}.

(** *** The compute inventory *)

(** An instance of the aggregated listing.  The optional fields are the
    ones the code reads with a default; the name is printed and sorted
    as a string by the report. *)
Record Instance : Type := {
  inst_status : option string;
  inst_name : string;
  inst_zone : option string;
  inst_machineType : option string;
  inst_id : option string
}.

Record ZoneData : Type := { instances : option (list Instance) }.

(** One page: [items] maps a zone to its data, in the order received. *)
Record Response : Type := { items : option (list (string * ZoneData)) }.

(** What the pagination loop receives, request after request:
    [Fail]: [req.execute()] raises (or, for the first request, [build]
    does), with an exception of any class;
    [Last]: a page without continuation token ([aggregatedList_next]
    returns [None]);
    [More]: a page with a continuation token, and what follows. *)
Inductive Listing : Type :=
| Fail (e : exn)
| Last (resp : Response)
| More (resp : Response) (next : Listing).

(** The two places that list the instances of a project.  Each sends its
    own requests, so each gets its own answers. *)
Inductive ListingCall : Type :=
| in_list_running_vms
| in_get_per_instance_breakdown.

(** *** The environment *)

Record World : Type := {
  (** [dt.datetime.utcnow()], in whole seconds since the epoch *)
  utcnow : Z;
  (** [MetricServiceClient()] and [client.list_time_series(request=req)],
      read to its end: [inl e] when the exception [e] is raised *)
  list_time_series : ListTimeSeriesRequest -> exn + list TimeSeries;
  (** [build(...)], [compute.instances().aggregatedList(project=...)] and
      its continuation requests, for each of the two places that list *)
  aggregatedList : ListingCall -> string -> Listing
}.

Definition call_list_time_series (w : World) (req : ListTimeSeriesRequest)
  : outcome (list TimeSeries) :=
  match list_time_series w req with
  | inl e => Raise e
  | inr series => Ok series
  end.

Definition dquote : string := String (ascii_of_nat 34) EmptyString.

Definition metric_filter (metric_type : string) : string :=
  ("metric.type = " ++ dquote ++ metric_type ++ dquote ++ " "
   ++ "AND resource.type = " ++ dquote ++ "gce_instance" ++ dquote)%string.

Definition _now_interval (w : World) (seconds : Z) : Z * Z :=
  let now := utcnow w in
  let start := (now - seconds)%Z in
  (start, now).

Definition _ts_request_common (w : World) (project_id metric_type : string)
  : ListTimeSeriesRequest :=
  let '(start, end_) := _now_interval w ALIGN_SECONDS in
  let interval := {| start_time := start; end_time := end_ |} in
  let aggregation := {| alignment_period := ALIGN_SECONDS;
                        per_series_aligner := ALIGN_MEAN;
                        cross_series_reducer := Some REDUCE_MEAN |} in
  let flt := metric_filter metric_type in
  {| req_name := ("projects/" ++ project_id)%string;
     req_filter := flt;
     req_interval := interval;
     req_view := FULL;
     req_aggregation := aggregation |}.

Definition CPU_METRIC : string :=
  "compute.googleapis.com/instance/cpu/utilization".
Definition MEM_METRIC : string :=
  "agent.googleapis.com/memory/percent_used".

(** [for ts in series: if ts.points: return ...] then [return nan] *)
Fixpoint scan_series (series : list TimeSeries) : float :=
  match series with
  | [] => nan
  | ts :: rest =>
      match points ts with
      | p :: _ => double_value p
      | [] => scan_series rest
      end
  end.

Definition get_project_cpu_avg (w : World) (project_id : string)
  : outcome float :=
  let req := _ts_request_common w project_id CPU_METRIC in
  series <- call_list_time_series w req ;;
  match series with
  | [] => Ok nan
  | _ => Ok (scan_series series)
  end.

Definition get_project_mem_avg (w : World) (project_id : string)
  : outcome float :=
  let req := _ts_request_common w project_id MEM_METRIC in
  series <- call_list_time_series w req ;;
  match series with
  | [] => Ok nan
  | _ => Ok (scan_series series)
  end.

(** *** list_running_vms *)

(** The dictionaries appended to [result]. *)
Record VM : Type := {
  vm_name : string;
  vm_zone : string;
  vm_machineType : string;
  vm_id : option string
}.

Definition get_default (o : option string) (d : string) : string :=
  match o with
  | Some s => s
  | None => d
  end.

(** [resp.get("items", {}).items()] *)
Definition resp_items (resp : Response) : list (string * ZoneData) :=
  match items resp with
  | Some l => l
  | None => []
  end.

(** [data.get("instances", []) if data.get("instances") else []] *)
Definition data_instances (data : ZoneData) : list Instance :=
  match instances data with
  | Some l => l
  | None => []
  end.

Definition is_running (inst : Instance) : bool :=
  option_eqb (inst_status inst) (Some "RUNNING").

Definition vm_of (inst : Instance) : VM :=
  {| vm_name := inst_name inst;
     vm_zone := last_segment (get_default (inst_zone inst) EmptyString);
     vm_machineType :=
       last_segment (get_default (inst_machineType inst) EmptyString);
     vm_id := inst_id inst |}.

(** The two nested [for] loops over one page. *)
Definition append_running (resp : Response) (result : list VM) : list VM :=
  fold_left
    (fun result zd =>
       fold_left
         (fun result inst =>
            if is_running inst then result ++ [vm_of inst] else result)
         (data_instances (snd zd)) result)
    (resp_items resp) result.

(** [while req is not None: ...] *)
Fixpoint running_loop (req : Listing) (result : list VM)
  : outcome (list VM) :=
  match req with
  | Fail e => Raise e
  | Last resp => Ok (append_running resp result)
  | More resp next => running_loop next (append_running resp result)
  end.

Definition list_running_vms (w : World) (project_id : string)
  : outcome (nat * list VM) :=
  let req := aggregatedList w in_list_running_vms project_id in
  result <- running_loop req [] ;;
  Ok (List.length result, result).

(** *** get_per_instance_breakdown *)

Record Meta : Type := {
  meta_name : string;
  meta_zone : string;
  meta_machineType : string
}.

Record Row : Type := {
  instance : string;
  zone : string;
  machineType : string;
  cpu_utilization_pct : float;
  memory_used_pct : float
}.

Definition label (labels : dict string string) (k : string) : string :=
  get_default (get String.eqb labels k) EmptyString.

(** The body of [fetch]'s loop over the returned series. *)
Definition fetch_step (vals : dict (string * string) float) (ts : TimeSeries)
  : dict (string * string) float :=
  let labels := resource_labels ts in
  let inst := label labels "instance_id" in
  let zone := label labels "zone" in
  let key := (inst, zone) in
  match points ts with
  | p :: _ => set pair_eqb vals key (double_value p)
  | [] => vals
  end.

Definition fetch (w : World) (project_id : string)
  (interval : TimeInterval) (agg : Aggregation) (metric_type : string)
  : outcome (dict (string * string) float) :=
  let flt := metric_filter metric_type in
  let req := {| req_name := ("projects/" ++ project_id)%string;
                req_filter := flt;
                req_interval := interval;
                req_view := FULL;
                req_aggregation := agg |} in
  series <- call_list_time_series w req ;;
  Ok (fold_left fetch_step series []).

Definition meta_of (inst : Instance) : Meta :=
  {| meta_name := inst_name inst;
     meta_zone := last_segment (get_default (inst_zone inst) EmptyString);
     meta_machineType :=
       last_segment (get_default (inst_machineType inst) EmptyString) |}.

Definition add_names (resp : Response) (name_map : dict (option string) Meta)
  : dict (option string) Meta :=
  fold_left
    (fun name_map zd =>
       fold_left
         (fun name_map inst =>
            set option_eqb name_map (inst_id inst) (meta_of inst))
         (data_instances (snd zd)) name_map)
    (resp_items resp) name_map.

Fixpoint name_loop (req : Listing) (name_map : dict (option string) Meta)
  : outcome (dict (option string) Meta) :=
  match req with
  | Fail e => Raise e
  | Last resp => Ok (add_names resp name_map)
  | More resp next => name_loop next (add_names resp name_map)
  end.

(** The body of the loop over [cpu.items()]. *)
Definition row_step (mem : dict (string * string) float)
  (name_map : dict (option string) Meta)
  (rows : list Row) (item : (string * string) * float) : list Row :=
  let '((inst_id, zone), cpu_val) := item in
  match get option_eqb name_map (Some inst_id) with
  | None => rows
  | Some meta =>
      rows ++ [{| instance := meta_name meta;
                  zone := meta_zone meta;
                  machineType := meta_machineType meta;
                  cpu_utilization_pct := round2 (cpu_val * 100)%float;
                  memory_used_pct :=
                    round2 match get pair_eqb mem (inst_id, zone) with
                           | Some v => v
                           | None => nan
                           end |}]
  end.

Definition join_rows (cpu mem : dict (string * string) float)
  (name_map : dict (option string) Meta) : list Row :=
  fold_left (row_step mem name_map) cpu [].

Definition get_per_instance_breakdown (w : World) (project_id : string)
  : outcome (list Row) :=
  let '(start, end_) := _now_interval w ALIGN_SECONDS in
  let interval := {| start_time := start; end_time := end_ |} in
  let agg := {| alignment_period := ALIGN_SECONDS;
                per_series_aligner := ALIGN_MEAN;
                cross_series_reducer := None |} in
  cpu <- fetch w project_id interval agg CPU_METRIC ;;
  mem <- fetch w project_id interval agg MEM_METRIC ;;
  let req := aggregatedList w in_get_per_instance_breakdown project_id in
  name_map <- name_loop req [] ;;
  Ok (join_rows cpu mem name_map).

End HealthAgent.

(** ** main.py *)

Module Main.
Import HealthAgent.

Definition PROJECTS : list string :=
  [ "km-prod";
    "km-prod-cn-443607";
    "km-prod-eu";
    "km-prod-in";
    "km-prod-us";
    "km-dev-434106" ].

(** *** Console output and the exceptions that cross it *)

(** What a stream receives from the program: the text of a [print] call,
    or the usage message of [parser.print_help()]. *)
Inductive entry : Type :=
| Printed (text : string)
| HelpMessage.

Record Console : Type := {
  stdout : list entry;
  stderr : list entry
}.

Definition IO (A : Type) : Type := Console -> outcome A * Console.

Definition ret {A} (a : A) : IO A := fun c => (Ok a, c).

Definition io_bind {A B} (m : IO A) (k : A -> IO B) : IO B :=
  fun c =>
    match m c with
    | (Ok a, c') => k a c'
    | (Raise e, c') => (Raise e, c')
    end.

(** A call into [health_agent], which prints nothing. *)
Definition call {A} (m : outcome A) : IO A := fun c => (m, c).

(** [print(text)] writes to standard output. *)
Definition print (text : string) : IO unit :=
  fun c => (Ok tt, {| stdout := stdout c ++ [Printed text];
                      stderr := stderr c |}).

Definition print_help : IO unit :=
  fun c => (Ok tt, {| stdout := stdout c ++ [HelpMessage];
                      stderr := stderr c |}).

(** [try: m  except cls as e: handler e] *)
Definition try_except {A} (m : IO A) (cls : exn -> bool)
  (handler : exn -> IO A) : IO A :=
  fun c =>
    match m c with
    | (Ok a, c') => (Ok a, c')
    | (Raise e, c') => if cls e then handler e c' else (Raise e, c')
    end.

Definition isinstance_GoogleAPICallError (e : exn) : bool :=
  match e with
  | GoogleAPICallError _ => true
  | HttpError _ => false
  | OtherError _ => false
  end.

Definition isinstance_HttpError (e : exn) : bool :=
  match e with
  | HttpError _ => true
  | GoogleAPICallError _ => false
  | OtherError _ => false
  end.

Declare Scope io_scope.
Delimit Scope io_scope with io.
Notation "x <- m ;; k" := (io_bind m (fun x => k))
  (at level 61, m at next level, right associativity) : io_scope.
Notation "m ;; k" := (io_bind m (fun _ => k))
  (at level 61, right associativity) : io_scope.
Local Open Scope io_scope.

(** [for x in l: body x] *)
Fixpoint for_each {A} (l : list A) (body : A -> IO unit) : IO unit :=
  match l with
  | [] => ret tt
  | x :: l' => body x ;; for_each l' body
  end.

(** *** run_for_project *)

Definition nl : string := String (ascii_of_nat 10) EmptyString.

(** ['%.2f%%' % (cpu_avg*100) if cpu_avg==cpu_avg else 'N/A'] *)
Definition show_cpu (cpu_avg : float) : string :=
  if self_equal cpu_avg
  then (format_2f (cpu_avg * 100)%float ++ "%")%string
  else "N/A".

(** ['%.2f%%' % (mem_avg) if mem_avg==mem_avg else 'N/A'] *)
Definition show_mem (mem_avg : float) : string :=
  if self_equal mem_avg
  then (format_2f mem_avg ++ "%")%string
  else "N/A".

Definition table_header : string :=
  (ljust 32 "INSTANCE" ++ " " ++ ljust 15 "ZONE" ++ " " ++ ljust 20 "TYPE"
   ++ " " ++ rjust 8 "CPU%" ++ " " ++ rjust 8 "MEM%")%string.

Definition table_line (r : Row) : string :=
  (ljust 32 (take 32 (instance r)) ++ " "
   ++ ljust 15 (take 15 (zone r)) ++ " "
   ++ ljust 20 (take 20 (machineType r)) ++ " "
   ++ rjust 8 (format_2f (cpu_utilization_pct r)) ++ " "
   ++ rjust 8 (format_2f (memory_used_pct r)))%string.

(** [lambda x: (x['zone'], x['instance'])] *)
Definition sort_key (x : Row) : string * string := (zone x, instance x).

Definition run_for_project (w : World) (project_id : string) : IO unit :=
  cpu_avg <-
    try_except (call (get_project_cpu_avg w project_id))
      isinstance_GoogleAPICallError
      (fun e =>
         print ("[!] CPU query failed for " ++ project_id ++ ": "
                ++ str_exn e)%string ;;
         ret nan) ;;
  mem_avg <-
    try_except (call (get_project_mem_avg w project_id))
      isinstance_GoogleAPICallError
      (fun e =>
         print ("[!] Memory query failed for " ++ project_id ++ ": "
                ++ str_exn e)%string ;;
         ret nan) ;;
  listed <-
    try_except (call (list_running_vms w project_id))
      isinstance_HttpError
      (fun e =>
         print ("[!] VM list failed for " ++ project_id ++ ": "
                ++ str_exn e)%string ;;
         ret (0, [])) ;;
  let '(vm_count, vms) := listed in
  print (nl ++ "=== GCP Project Health (last 10 minutes) ===")%string ;;
  print ("Project: " ++ project_id)%string ;;
  print ("Average CPU Utilization: " ++ show_cpu cpu_avg)%string ;;
  print ("Average Memory Used: " ++ show_mem mem_avg)%string ;;
  print ("RUNNING VMs: " ++ str_nat vm_count)%string ;;
  if Nat.eqb vm_count 0 then ret tt
  else
    print (nl ++ "-- Per-instance (avg of last 10m) --")%string ;;
    rows <- call (get_per_instance_breakdown w project_id) ;;
    match rows with
    | [] =>
        print "No per-instance metrics found (ensure Ops Agent is installed)."
    | _ =>
        print table_header ;;
        for_each (sorted sort_key pair_ltb rows)
          (fun r => print (table_line r))
    end.

(** *** main *)

(** The parsed command line: [--all] and [--project]. *)
Record Args : Type := {
  all : bool;
  project : option string
}.

(** Truth value of [args.project]. *)
Definition truthy (o : option string) : bool :=
  match o with
  | Some (String _ _) => true
  | _ => false
  end.

Definition main (w : World) (args : Args) : IO unit :=
  if all args then for_each PROJECTS (fun pid => run_for_project w pid)
  else if truthy (project args)
       then run_for_project w (get_default (project args) EmptyString)
       else print_help.

End Main.

(** ** app.py *)

Module App.
Import HealthAgent.

Definition PROJECTS : list string :=
  [ "km-prod";
    "km-prod-cn-443607";
    "km-prod-eu";
    "km-prod-in";
    "km-prod-us";
    "km-dev-434106" ].

(** The [result] dictionary handed to the template. *)
Record Result : Type := {
  project : string;
  cpu_avg : string;
  mem_avg : string;
  vm_count : nat;
  instances : list Row
}.

(** The call [render_template("index.html", projects=..., result=...)]. *)
Record Page : Type := {
  template : string;
  projects : list string;
  result : option Result
}.

Definition render_template (name : string) (projects : list string)
  (result : option Result) : Page :=
  {| template := name; projects := projects; result := result |}.

(** Truth value of [project_id]: present in the form and not empty. *)
Definition truthy (o : option string) : bool :=
  match o with
  | Some (String _ _) => true
  | _ => false
  end.

(** [index()], for a request whose form data is [form] (empty for GET). *)
Definition index (w : World) (form : dict string string) : outcome Page :=
  let project_id := get String.eqb form "project_id" in
  result <-
    (if truthy project_id then
       let project_id := get_default project_id EmptyString in
       cpu_avg <- get_project_cpu_avg w project_id ;;
       mem_avg <- get_project_mem_avg w project_id ;;
       listed <- list_running_vms w project_id ;;
       let '(vm_count, vms) := listed in
       per_instance <- get_per_instance_breakdown w project_id ;;
       Ok (Some
             {| project := project_id;
                cpu_avg := if self_equal cpu_avg
                           then (format_2f (cpu_avg * 100)%float ++ "%")%string
                           else "N/A";
                mem_avg := if self_equal mem_avg
                           then (format_2f mem_avg ++ "%")%string
                           else "N/A";
                vm_count := vm_count;
                instances := per_instance |})
     else Ok None) ;;
  Ok (render_template "index.html" PROJECTS result).

End App.

Unset Implicit Arguments.

(** * Specification-side definitions

    The functions below restate, in the words of the specification, what
    the program is meant to compute; the theorems compare them with the
    embedding above. *)

Import HealthAgent.

(** ** Path segments *)

(** [sep.join(l)] *)
Fixpoint join (sep : ascii) (l : list string) : string :=
  match l with
  | [] => EmptyString
  | [x] => x
  | x :: l' => (x ++ String sep (join sep l'))%string
  end.

Definition no_sep (sep : ascii) (s : string) : Prop :=
  ~ In sep (list_ascii_of_string s).

(** [seg] is the last path segment of [path]: what follows its last slash. *)
Definition is_last_segment (path seg : string) : Prop :=
  no_sep "/" seg
  /\ exists pre : string,
       path = (pre ++ seg)%string
       /\ (pre = EmptyString \/ exists p : string, pre = (p ++ "/")%string).

(** ** The aggregate fetcher *)

Definition has_points (ts : TimeSeries) : bool :=
  match points ts with
  | [] => false
  | _ :: _ => true
  end.

(** The first point of the first series that has a point, not-a-number
    when there is none. *)
Definition first_available (series : list TimeSeries) : float :=
  match find has_points series with
  | Some ts =>
      match points ts with
      | p :: _ => double_value p
      | [] => nan
      end
  | None => nan
  end.

(** ** The inventory pages *)

(** The pages of a listing that ends in a page without continuation
    token; [None] when one of the requests fails. *)
Fixpoint responses (req : Listing) : option (list Response) :=
  match req with
  | Fail _ => None
  | Last resp => Some [resp]
  | More resp next =>
      match responses next with
      | Some pages => Some (resp :: pages)
      | None => None
      end
  end.

Definition page_instances (resp : Response) : list Instance :=
  flat_map (fun zd => data_instances (snd zd)) (resp_items resp).

Definition all_instances (pages : list Response) : list Instance :=
  flat_map page_instances pages.

(** The status of the instance is the value RUNNING of the API. *)
Definition status_is_running (inst : Instance) : bool :=
  match inst_status inst with
  | Some status => String.eqb status "RUNNING"
  | None => false
  end.

(** [vm] records [inst]: it has its name and its id, and its zone and
    machine type are the last segments of the instance's resource paths
    (the empty string for a path that is missing). *)
Definition records (inst : Instance) (vm : VM) : Prop :=
  vm_name vm = inst_name inst
  /\ vm_id vm = inst_id inst
  /\ match inst_zone inst with
     | Some path => is_last_segment path (vm_zone vm)
     | None => vm_zone vm = EmptyString
     end
  /\ match inst_machineType inst with
     | Some path => is_last_segment path (vm_machineType vm)
     | None => vm_machineType vm = EmptyString
     end.

(** ** The per-instance joiner *)

(** The three values [get_per_instance_breakdown] fetches before joining. *)
Definition breakdown_interval (w : World) : TimeInterval :=
  {| start_time := (utcnow w - ALIGN_SECONDS)%Z; end_time := utcnow w |}.

Definition breakdown_agg : Aggregation :=
  {| alignment_period := ALIGN_SECONDS;
     per_series_aligner := ALIGN_MEAN;
     cross_series_reducer := None |}.

Definition cpu_map (w : World) (project_id : string)
  : outcome (dict (string * string) float) :=
  fetch w project_id (breakdown_interval w) breakdown_agg CPU_METRIC.

Definition mem_map (w : World) (project_id : string)
  : outcome (dict (string * string) float) :=
  fetch w project_id (breakdown_interval w) breakdown_agg MEM_METRIC.

Definition vm_record_map (w : World) (project_id : string)
  : outcome (dict (option string) Meta) :=
  name_loop (aggregatedList w in_get_per_instance_breakdown project_id) [].

(** The CPU sample [item] has a VM record: its instance id is a key of
    the VM record map. *)
Definition matched (name_map : dict (option string) Meta)
  (item : (string * string) * float) : bool :=
  match get option_eqb name_map (Some (fst (fst item))) with
  | Some _ => true
  | None => false
  end.

(** [row] is the join of the CPU sample [item] with its VM record and
    with the memory sample under the same key. *)
Definition joined (mem : dict (string * string) float)
  (name_map : dict (option string) Meta)
  (item : (string * string) * float) (row : Row) : Prop :=
  exists meta : Meta,
    get option_eqb name_map (Some (fst (fst item))) = Some meta
    /\ instance row = meta_name meta
    /\ zone row = meta_zone meta
    /\ machineType row = meta_machineType meta
    /\ cpu_utilization_pct row = round2 (snd item * 100)%float
    /\ memory_used_pct row
       = match get pair_eqb mem (fst item) with
         | Some v => round2 v
         | None => nan
         end.

(** The memory map without the keys that have no CPU sample. *)
Definition without_memory_only (mem cpu : dict (string * string) float)
  : dict (string * string) float :=
  filter
    (fun kv =>
       match get pair_eqb cpu (fst kv) with
       | Some _ => true
       | None => false
       end)
    mem.

(** The update of the VM record map for one listed instance. *)
Definition record_instance (name_map : dict (option string) Meta)
  (inst : Instance) : dict (option string) Meta :=
  set option_eqb name_map (inst_id inst) (meta_of inst).

(** ** Example worlds *)

Definition series_of (inst zone : string) (values : list float) : TimeSeries :=
  {| resource_labels := [("instance_id", inst); ("zone", zone)];
     points := map (fun v => {| double_value := v |}) values |}.

Definition zone_url (project zone : string) : string :=
  ("https://www.googleapis.com/compute/v1/projects/" ++ project
   ++ "/zones/" ++ zone)%string.

Definition web_1 : Instance :=
  {| inst_status := Some "RUNNING";
     inst_name := "web-1";
     inst_zone := Some (zone_url "km-prod" "us-central1-a");
     inst_machineType :=
       Some (zone_url "km-prod" "us-central1-a" ++ "/machineTypes/e2-medium")%string;
     inst_id := Some "123" |}.

Definition db_1 : Instance :=
  {| inst_status := Some "TERMINATED";
     inst_name := "db-1";
     inst_zone := Some (zone_url "km-prod" "europe-west1-b");
     inst_machineType :=
       Some (zone_url "km-prod" "europe-west1-b" ++ "/machineTypes/n2-standard-4")%string;
     inst_id := Some "456" |}.

Definition api_1 : Instance :=
  {| inst_status := Some "RUNNING";
     inst_name := "api-1";
     inst_zone := Some (zone_url "km-prod" "asia-south1-a");
     inst_machineType :=
       Some (zone_url "km-prod" "asia-south1-a" ++ "/machineTypes/e2-small")%string;
     inst_id := Some "789" |}.

Definition page (zone : string) (l : list Instance) : Response :=
  {| items := Some [(("zones/" ++ zone)%string, {| instances := Some l |})] |}.

Definition demo_pages : list Response :=
  [ page "us-central1-a" [web_1];
    page "europe-west1-b" [db_1];
    page "asia-south1-a" [api_1] ].

(** Three pages, the first two with a continuation token. *)
Definition demo_listing : Listing :=
  More (page "us-central1-a" [web_1])
    (More (page "europe-west1-b" [db_1])
       (Last (page "asia-south1-a" [api_1]))).

(** The monitoring service is down for the second project of the batch.
    Elsewhere the project-wide queries (with the cross-series reducer)
    return one series, and the per-instance queries return a series per
    instance: CPU for instances 123, 999 (not in the inventory) and 789,
    memory for instances 123 and 555 (no CPU sample). *)
Definition demo_metrics (req : ListTimeSeriesRequest)
  : exn + list TimeSeries :=
  if String.eqb (req_name req) "projects/km-prod-cn-443607"
  then inl (GoogleAPICallError "503 The service is currently unavailable.")
  else
    let is_cpu := String.eqb (req_filter req) (metric_filter CPU_METRIC) in
    match cross_series_reducer (req_aggregation req) with
    | Some _ =>
        if is_cpu
        then inr [ {| resource_labels := []; points := [] |};
                   {| resource_labels := [];
                      points := [ {| double_value := 0.25 |};
                                  {| double_value := 0.5 |} ] |} ]
        else inr [ {| resource_labels := [];
                      points := [ {| double_value := 61.5 |} ] |} ]
    | None =>
        if is_cpu
        then inr [ series_of "123" "us-central1-a" [0.4567%float];
                   series_of "999" "us-central1-a" [0.9%float];
                   series_of "789" "asia-south1-a" [0.031%float] ]
        else inr [ series_of "123" "us-central1-a" [37.256%float];
                   series_of "555" "us-central1-a" [12.5%float] ]
    end.

Definition demo_world : World :=
  {| utcnow := 1762178400;
     list_time_series := demo_metrics;
     aggregatedList := fun _ _ => demo_listing |}.

(** The same answers, computed another way. *)
Definition demo_world_again : World :=
  {| utcnow := (1762178000 + 400)%Z;
     list_time_series :=
       fun req =>
         match demo_metrics req with
         | inl e => inl e
         | inr series => inr series
         end;
     aggregatedList := fun _ project_id =>
       if String.eqb project_id "km-prod" then demo_listing else demo_listing |}.

(** A project whose only instance was stopped a few minutes ago: the
    inventory lists it as TERMINATED, and the monitoring service still
    has its CPU samples of the last ten minutes. *)
Definition stopped_world : World :=
  {| utcnow := 1762178400;
     list_time_series :=
       fun req =>
         if String.eqb (req_filter req) (metric_filter CPU_METRIC)
         then inr [ series_of "456" "europe-west1-b" [0.02%float] ]
         else inr [];
     aggregatedList := fun _ _ => Last (page "europe-west1-b" [db_1]) |}.

Definition demo_cpu : dict (string * string) float :=
  [ (("123", "us-central1-a"), 0.4567%float);
    (("999", "us-central1-a"), 0.9%float);
    (("789", "asia-south1-a"), 0.031%float) ].

Definition demo_mem : dict (string * string) float :=
  [ (("123", "us-central1-a"), 37.256%float);
    (("555", "us-central1-a"), 12.5%float) ].

Definition demo_names : dict (option string) Meta :=
  [ (Some "123", meta_of web_1);
    (Some "456", meta_of db_1);
    (Some "789", meta_of api_1) ].

Definition demo_rows : list Row :=
  [ {| instance := "web-1";
       zone := "us-central1-a";
       machineType := "e2-medium";
       cpu_utilization_pct := 45.67%float;
       memory_used_pct := 37.26%float |};
    {| instance := "api-1";
       zone := "asia-south1-a";
       machineType := "e2-small";
       cpu_utilization_pct := 3.1%float;
       memory_used_pct := nan |} ].

(** ** The command-line report *)

Import Main.

Definition empty_console : Console := {| stdout := []; stderr := [] |}.

(** The console after [out] was written to standard output. *)
Definition emit (c : Console) (out : list entry) : Console :=
  {| stdout := stdout c ++ out; stderr := stderr c |}.

(** The message printed when a guarded call of a project raised. *)
Definition caught {A : Type} (prefix project_id : string) (r : outcome A)
  : list entry :=
  match r with
  | Ok _ => []
  | Raise e => [Printed (prefix ++ project_id ++ ": " ++ str_exn e)%string]
  end.

(** The value of a call, or the neutral default when it raised. *)
Definition or_default {A : Type} (r : outcome A) (d : A) : A :=
  match r with
  | Ok a => a
  | Raise _ => d
  end.

Definition summary_lines (project_id : string) (cpu_avg mem_avg : float)
  (vm_count : nat) : list entry :=
  [ Printed (nl ++ "=== GCP Project Health (last 10 minutes) ===")%string;
    Printed ("Project: " ++ project_id)%string;
    Printed ("Average CPU Utilization: " ++ show_cpu cpu_avg)%string;
    Printed ("Average Memory Used: " ++ show_mem mem_avg)%string;
    Printed ("RUNNING VMs: " ++ str_nat vm_count)%string ].

(** The per-instance part of the report: nothing without running VMs;
    otherwise the outcome of the breakdown call and the lines printed. *)
Definition table_part (w : World) (project_id : string) (vm_count : nat)
  : outcome unit * list entry :=
  match vm_count with
  | O => (Ok tt, [])
  | S _ =>
      let title := Printed (nl ++ "-- Per-instance (avg of last 10m) --")%string in
      match get_per_instance_breakdown w project_id with
      | Raise e => (Raise e, [title])
      | Ok [] =>
          (Ok tt,
           [title;
            Printed "No per-instance metrics found (ensure Ops Agent is installed)."])
      | Ok rows =>
          (Ok tt,
           title :: Printed table_header
           :: map (fun r => Printed (table_line r))
                (sorted sort_key pair_ltb rows))
      end
  end.

(** What [run_for_project] does for one project: the three guarded calls
    with their defaults, the summary and the per-instance part. *)
Definition project_report (w : World) (project_id : string)
  : outcome unit * list entry :=
  let cpu := get_project_cpu_avg w project_id in
  let mem := get_project_mem_avg w project_id in
  let listed := list_running_vms w project_id in
  let vm_count := fst (or_default listed (0, [])) in
  let table := table_part w project_id vm_count in
  (fst table,
   caught "[!] CPU query failed for " project_id cpu
   ++ caught "[!] Memory query failed for " project_id mem
   ++ caught "[!] VM list failed for " project_id listed
   ++ summary_lines project_id (or_default cpu nan) (or_default mem nan) vm_count
   ++ snd table).

(** A call returns, or raises an exception of the class [cls]. *)
Definition caught_by {A : Type} (cls : exn -> bool) (r : outcome A) : Prop :=
  forall e : exn, r = Raise e -> cls e = true.

(** What the three guarded calls of a project raise, if anything, are
    errors of the class their handler names: [GoogleAPICallError] for the
    two project-wide queries, [HttpError] for the listing. *)
Definition contained (w : World) (project_id : string) : Prop :=
  caught_by isinstance_GoogleAPICallError (get_project_cpu_avg w project_id)
  /\ caught_by isinstance_GoogleAPICallError (get_project_mem_avg w project_id)
  /\ caught_by isinstance_HttpError (list_running_vms w project_id).

(** The per-instance breakdown of the project is not called (no running
    VM was counted), or it returns. *)
Definition breakdown_returns (w : World) (project_id : string) : Prop :=
  fst (or_default (list_running_vms w project_id) (0, [])) = 0
  \/ exists rows : list Row,
       get_per_instance_breakdown w project_id = Ok rows.

(** The projects a command line asks for. *)
Definition batch (args : Args) : list string :=
  if all args then PROJECTS
  else if truthy (project args)
       then [get_default (project args) EmptyString]
       else [].

(** Two worlds in which the requests made for a project get the same
    answers at the same clock value. *)
Definition same_upstream (project_id : string) (w1 w2 : World) : Prop :=
  utcnow w1 = utcnow w2
  /\ (forall req : ListTimeSeriesRequest,
        req_name req = ("projects/" ++ project_id)%string ->
        list_time_series w1 req = list_time_series w2 req)
  /\ (forall site : ListingCall,
        aggregatedList w1 site project_id = aggregatedList w2 site project_id).

(** As [demo_world], with the inventory of the second project of the
    batch failing as well. *)
Definition outage_world : World :=
  {| utcnow := utcnow demo_world;
     list_time_series := demo_metrics;
     aggregatedList := fun _ project_id =>
       if String.eqb project_id "km-prod-cn-443607"
       then Fail (HttpError "503 Backend Error")
       else demo_listing |}.

Definition all_projects : Args := {| all := true; project := None |}.

(** ** Last value under a key *)

Section LastWins.
Variables X K V : Type.
Variable eqb : K -> K -> bool.
Variable key : X -> K.
Variable value : X -> option V.

(** The value of the last element of [l] that has the key [k] and a
    value. *)
Fixpoint last_value (k : K) (l : list X) : option V :=
  match l with
  | [] => None
  | x :: l' =>
      match last_value k l' with
      | Some v => Some v
      | None => if eqb k (key x) then value x else None
      end
  end.

(** [d[key x] = v] when [x] has the value [v], nothing otherwise. *)
Definition put (d : dict K V) (x : X) : dict K V :=
  match value x with
  | Some v => set eqb d (key x) v
  | None => d
  end.
End LastWins.
Arguments last_value {X K V} eqb key value k l.
Arguments put {X K V} eqb key value d x.

(** The key and the sample that [fetch] reads off a series. *)
Definition series_key (ts : TimeSeries) : string * string :=
  (label (resource_labels ts) "instance_id", label (resource_labels ts) "zone").

Definition sample_of (ts : TimeSeries) : option float :=
  match points ts with
  | p :: _ => Some (double_value p)
  | [] => None
  end.

(** The request that [fetch] sends. *)
Definition fetch_request (project_id : string) (interval : TimeInterval)
  (agg : Aggregation) (metric_type : string) : ListTimeSeriesRequest :=
  {| req_name := ("projects/" ++ project_id)%string;
     req_filter := metric_filter metric_type;
     req_interval := interval;
     req_view := FULL;
     req_aggregation := agg |}.

(** ** Failing listings *)

(** The exception of the request of the listing that fails, if one does. *)
Fixpoint first_failure (req : Listing) : option exn :=
  match req with
  | Fail e => Some e
  | Last _ => None
  | More _ next => first_failure next
  end.

(** The pages received before the listing ends or fails. *)
Fixpoint pages_of (req : Listing) : list Response :=
  match req with
  | Fail _ => []
  | Last resp => [resp]
  | More resp next => resp :: pages_of next
  end.

(** A listing whose second request fails. *)
Definition broken_listing : Listing :=
  More (page "us-central1-a" [web_1])
    (Fail (HttpError "500 Internal Server Error")).

(** Two series of the same instance and zone, the second one newer, and a
    series without points. *)
Definition repeated_series : list TimeSeries :=
  [ series_of "123" "us-central1-a" [0.1%float; 0.9%float];
    series_of "789" "asia-south1-a" [];
    series_of "123" "us-central1-a" [0.2%float] ].

Definition repeated_world : World :=
  {| utcnow := 1762178400;
     list_time_series := fun _ => inr repeated_series;
     aggregatedList := fun _ _ => broken_listing |}.

(** The monitoring client gives up after its retries: the exception is a
    [RetryError], which is not a [GoogleAPICallError]. *)
Definition retry_world : World :=
  {| utcnow := 1762178400;
     list_time_series :=
       fun _ => inl (OtherError "RetryError: Deadline of 60.0s exceeded");
     aggregatedList := fun _ _ => demo_listing |}.

(** ** The order of the table *)

(** [a] does not come after [b] in the order of the report: the key of
    [b] is not smaller than the key of [a]. *)
Definition in_order (a b : Row) : Prop :=
  pair_ltb (sort_key b) (sort_key a) = false.

(** A project without any data: no series, no instance. *)
Definition idle_world : World :=
  {| utcnow := 1762178400;
     list_time_series := fun _ => inr [];
     aggregatedList := fun _ _ => Last {| items := None |} |}.

(** Running instances that report memory but no CPU sample. *)
Definition memory_only_world : World :=
  {| utcnow := 1762178400;
     list_time_series :=
       fun req =>
         if String.eqb (req_filter req) (metric_filter CPU_METRIC)
         then inr [ series_of "123" "us-central1-a" [] ]
         else inr [ series_of "123" "us-central1-a" [37.256%float] ];
     aggregatedList := fun _ _ => demo_listing |}.

(** * Properties *)

(** ** Path segments *)

Lemma string_app_assoc (a b c : string) :
  ((a ++ b) ++ c)%string = (a ++ (b ++ c))%string.
Proof. induction a as [|x a IH]; simpl; [reflexivity|now rewrite IH]. Qed.

Section Segments.
Variable sep : ascii.

Lemma split_not_nil (s : string) : split sep s <> [].
Proof.
  induction s as [|c s IH]; simpl; [discriminate|].
  destruct (Ascii.eqb c sep); [discriminate|].
  destruct (split sep s); discriminate.
Qed.

Lemma join_split (s : string) : join sep (split sep s) = s.
Proof.
  induction s as [|c s IH]; simpl; [reflexivity|].
  destruct (Ascii.eqb_spec c sep) as [->|Hc].
  - pose proof (split_not_nil s) as Hn.
    destruct (split sep s) as [|h t]; [congruence|].
    change (join sep (EmptyString :: h :: t))
      with (EmptyString ++ String sep (join sep (h :: t)))%string.
    now rewrite IH.
  - pose proof (split_not_nil s) as Hn.
    destruct (split sep s) as [|h t]; [congruence|].
    destruct t as [|h' t]; [simpl in *; now rewrite IH|].
    change (join sep (String c h :: h' :: t))
      with (String c (h ++ String sep (join sep (h' :: t))))%string.
    change (join sep (h :: h' :: t))
      with (h ++ String sep (join sep (h' :: t)))%string in IH.
    now rewrite IH.
Qed.

Lemma split_no_sep (s : string) : Forall (no_sep sep) (split sep s).
Proof.
  induction s as [|c s IH]; simpl.
  - constructor; [intros []|constructor].
  - destruct (Ascii.eqb_spec c sep) as [->|Hc].
    + constructor; [intros []|exact IH].
    + pose proof (split_not_nil s) as Hn.
      destruct (split sep s) as [|h t]; [congruence|].
      inversion IH as [|? ? Hh Ht]; subst.
      constructor; [|exact Ht].
      intros [Heq|Hin]; [now apply Hc|now apply Hh].
Qed.

Lemma join_last (l : list string) :
  l <> [] ->
  exists pre : string,
    join sep l = (pre ++ last l EmptyString)%string
    /\ (pre = EmptyString
        \/ exists p : string, pre = (p ++ String sep EmptyString)%string).
Proof.
  induction l as [|x l IH]; [congruence|]; intros _.
  destruct l as [|y l].
  - exists EmptyString. split; [reflexivity|now left].
  - destruct IH as (pre & Hj & Hpre); [discriminate|].
    exists (x ++ String sep pre)%string. split.
    + change (join sep (x :: y :: l))
        with (x ++ String sep (join sep (y :: l)))%string.
      change (last (x :: y :: l) EmptyString) with (last (y :: l) EmptyString).
      rewrite Hj, string_app_assoc. reflexivity.
    + right. destruct Hpre as [->|(p & ->)].
      * exists x. reflexivity.
      * exists (x ++ String sep p)%string.
        rewrite string_app_assoc. reflexivity.
Qed.
End Segments.

(** [last_segment s] is the part of [s] after its last slash. *)
Lemma last_segment_spec (s : string) : is_last_segment s (last_segment s).
Proof.
  unfold is_last_segment, last_segment. split.
  - pose proof (split_no_sep "/" s) as Hall.
    pose proof (split_not_nil "/" s) as Hn.
    rewrite Forall_forall in Hall. apply Hall.
    destruct (split "/" s) as [|h t]; [congruence|].
    apply exists_last in Hn. destruct Hn as (l' & a & ->).
    rewrite last_last. apply in_or_app. right. now left.
  - destruct (join_last "/" _ (split_not_nil "/" s)) as (pre & Hj & Hpre).
    rewrite join_split in Hj. exists pre. split; assumption.
Qed.

(** ** The aggregate fetcher *)

Lemma scan_series_first_available (series : list TimeSeries) :
  scan_series series = first_available series.
Proof.
  unfold first_available.
  induction series as [|ts rest IH]; simpl; [reflexivity|].
  unfold has_points at 1.
  destruct (points ts) as [|p ps] eqn:Hp.
  - exact IH.
  - rewrite Hp. reflexivity.
Qed.

Lemma first_available_no_points (series : list TimeSeries) :
  Forall (fun ts => points ts = []) series -> first_available series = nan.
Proof.
  intros Hall. unfold first_available.
  induction Hall as [|ts rest Hts _ IH]; simpl; [reflexivity|].
  unfold has_points at 1. rewrite Hts. exact IH.
Qed.

Lemma first_available_found (pre post : list TimeSeries) (ts : TimeSeries)
  (p : Point) (ps : list Point) :
  Forall (fun ts' => points ts' = []) pre ->
  points ts = p :: ps ->
  first_available (pre ++ ts :: post) = double_value p.
Proof.
  intros Hpre Hts. unfold first_available.
  induction Hpre as [|ts' pre Hts' _ IH]; simpl.
  - unfold has_points at 1. rewrite Hts. rewrite Hts. reflexivity.
  - unfold has_points at 1. rewrite Hts'. exact IH.
Qed.

Lemma project_avg_first_available (w : World) (project_id metric : string) :
  (series <- call_list_time_series w (_ts_request_common w project_id metric) ;;
   match series with
   | [] => Ok nan
   | _ => Ok (scan_series series)
   end)
  = match list_time_series w (_ts_request_common w project_id metric) with
    | inl e => Raise e
    | inr series => Ok (first_available series)
    end.
Proof.
  unfold call_list_time_series.
  destruct (list_time_series w _) as [e|series]; simpl; [reflexivity|].
  destruct series as [|ts rest]; [reflexivity|].
  now rewrite scan_series_first_available.
Qed.

(** C2.  Both project-wide fetchers return the value of the first point of
    the first returned series that has a point, in the order the service
    returned the series, and not-a-number when the list is empty or no
    series has a point; an error of the service is raised to the caller. *)
Theorem project_avg_is_first_available_point (w : World) (project_id : string) :
  get_project_cpu_avg w project_id
  = match list_time_series w (_ts_request_common w project_id CPU_METRIC) with
    | inl e => Raise e
    | inr series => Ok (first_available series)
    end
  /\ get_project_mem_avg w project_id
     = match list_time_series w (_ts_request_common w project_id MEM_METRIC) with
       | inl e => Raise e
       | inr series => Ok (first_available series)
       end.
Proof.
  split; [unfold get_project_cpu_avg|unfold get_project_mem_avg];
    apply project_avg_first_available.
Qed.

(** ** The instance lister *)

Lemma fold_running (l : list Instance) (result : list VM) :
  fold_left
    (fun result inst =>
       if is_running inst then result ++ [vm_of inst] else result)
    l result
  = result ++ map vm_of (filter is_running l).
Proof.
  revert result.
  induction l as [|inst l IH]; intros result; simpl.
  - now rewrite app_nil_r.
  - rewrite IH. destruct (is_running inst); simpl; [|reflexivity].
    now rewrite <- app_assoc.
Qed.

Lemma append_running_spec (resp : Response) (result : list VM) :
  append_running resp result
  = result ++ map vm_of (filter is_running (page_instances resp)).
Proof.
  unfold append_running, page_instances.
  revert result.
  induction (resp_items resp) as [|zd l IH]; intros result; simpl.
  - now rewrite app_nil_r.
  - rewrite fold_running, IH, filter_app, map_app, app_assoc. reflexivity.
Qed.

Lemma running_loop_spec (req : Listing) :
  forall (result : list VM) (pages : list Response),
    responses req = Some pages ->
    running_loop req result
    = Ok (result ++ map vm_of (filter is_running (all_instances pages))).
Proof.
  induction req as [msg|resp|resp next IH]; intros result pages H; simpl in *.
  - discriminate.
  - injection H as <-. unfold all_instances. simpl.
    now rewrite app_nil_r, append_running_spec.
  - destruct (responses next) as [pages'|]; [|discriminate].
    injection H as <-.
    rewrite (IH _ pages' eq_refl), append_running_spec.
    unfold all_instances. simpl.
    now rewrite filter_app, map_app, app_assoc.
Qed.

Lemma running_loop_fails (req : Listing) :
  forall result : list VM,
    responses req = None ->
    exists e : exn, running_loop req result = Raise e.
Proof.
  induction req as [e|resp|resp next IH]; intros result H; simpl in *.
  - now exists e.
  - discriminate.
  - apply IH. destruct (responses next); [discriminate|reflexivity].
Qed.

Lemma is_running_iff (inst : Instance) :
  is_running inst = true <-> inst_status inst = Some "RUNNING".
Proof.
  unfold is_running, option_eqb.
  destruct (inst_status inst) as [s|]; split; intros H; try discriminate.
  - apply String.eqb_eq in H. now subst.
  - injection H as ->. reflexivity.
Qed.

Lemma is_running_status (inst : Instance) :
  is_running inst = status_is_running inst.
Proof.
  unfold is_running, status_is_running. now destruct (inst_status inst).
Qed.

Lemma vm_of_records (inst : Instance) : records inst (vm_of inst).
Proof.
  unfold records. simpl. split; [reflexivity|]. split; [reflexivity|].
  split.
  - destruct (inst_zone inst) as [path|]; [apply last_segment_spec|reflexivity].
  - destruct (inst_machineType inst) as [path|];
      [apply last_segment_spec|reflexivity].
Qed.

Lemma NoDup_map_filter {A B : Type} (f : A -> B) (keep : A -> bool)
  (l : list A) :
  NoDup (map f l) -> NoDup (map f (filter keep l)).
Proof.
  induction l as [|a l IH]; simpl; intros Hnd; [constructor|].
  inversion Hnd as [|? ? Hnotin Hrest]; subst.
  destruct (keep a); simpl; [|now apply IH].
  constructor; [|now apply IH].
  intros Hin. apply Hnotin. apply in_map_iff in Hin.
  destruct Hin as (x & Hx & Hin). apply filter_In in Hin.
  apply in_map_iff. exists x. tauto.
Qed.

(** C8.  When the listing ends in a page without continuation token, the
    lister returns, in the order received over all pages, one record for
    each instance whose status is RUNNING and none for the others; a
    record has the name and the id of its instance, and its zone and
    machine type are the last path segments of the instance's resource
    paths; when the listed instances have pairwise distinct ids, so have
    the records, and no record appears twice. *)
Theorem list_running_vms_accumulates_pages
  (w : World) (project_id : string) (pages : list Response) :
  responses (aggregatedList w in_list_running_vms project_id) = Some pages ->
  exists vms : list VM,
    list_running_vms w project_id = Ok (List.length vms, vms)
    /\ Forall2 records (filter status_is_running (all_instances pages)) vms
    /\ (NoDup (map inst_id (all_instances pages)) ->
        NoDup (map vm_id vms) /\ NoDup vms).
Proof.
  intros Hpages.
  exists (map vm_of (filter is_running (all_instances pages))).
  split; [|split].
  - unfold list_running_vms.
    rewrite (running_loop_spec _ [] pages Hpages). reflexivity.
  - rewrite (filter_ext is_running status_is_running is_running_status
               (all_instances pages)).
    induction (filter status_is_running (all_instances pages)) as [|inst l IH];
      simpl; constructor; [apply vm_of_records|exact IH].
  - intros Hnd.
    assert (Hids : NoDup (map vm_id
                            (map vm_of (filter is_running (all_instances pages))))).
    { rewrite map_map.
      exact (NoDup_map_filter inst_id is_running _ Hnd). }
    split; [exact Hids|]. exact (NoDup_map_inv _ _ Hids).
Qed.

(** ** Dictionaries *)

Lemma pair_eqb_spec (a b : string * string) : reflect (a = b) (pair_eqb a b).
Proof.
  destruct a as [a1 a2], b as [b1 b2]. unfold pair_eqb. simpl.
  destruct (String.eqb_spec a1 b1) as [->|H1]; simpl.
  - destruct (String.eqb_spec a2 b2) as [->|H2]; constructor; congruence.
  - constructor. congruence.
Qed.

Lemma option_eqb_spec (a b : option string) : reflect (a = b) (option_eqb a b).
Proof.
  destruct a as [a|], b as [b|]; simpl; try (constructor; congruence).
  destruct (String.eqb_spec a b); constructor; congruence.
Qed.

Section DictFacts.
Variables K V : Type.
Variable eqb : K -> K -> bool.
Hypothesis eqb_spec : forall a b : K, reflect (a = b) (eqb a b).

Lemma get_set_same (d : dict K V) (k : K) (v : V) :
  get eqb (set eqb d k v) k = Some v.
Proof.
  induction d as [|[k' v'] d IH]; simpl.
  - destruct (eqb_spec k k); congruence.
  - destruct (eqb_spec k k') as [->|Hk]; simpl.
    + destruct (eqb_spec k' k'); congruence.
    + destruct (eqb_spec k k'); congruence.
Qed.

Lemma get_set_other (d : dict K V) (k k' : K) (v : V) :
  k' <> k -> get eqb (set eqb d k v) k' = get eqb d k'.
Proof.
  intros Hk. induction d as [|[k0 v0] d IH]; simpl.
  - destruct (eqb_spec k' k); congruence.
  - destruct (eqb_spec k k0) as [->|Hk0]; simpl.
    + destruct (eqb_spec k' k0); congruence.
    + destruct (eqb_spec k' k0); congruence.
Qed.

Lemma in_get (d : dict K V) (k : K) (v : V) :
  In (k, v) d -> get eqb d k <> None.
Proof.
  induction d as [|[k' v'] d IH]; simpl; [tauto|].
  intros [Heq|Hin].
  - injection Heq as -> ->. destruct (eqb_spec k k); congruence.
  - destruct (eqb_spec k k'); [discriminate|auto].
Qed.

Lemma get_filter_keys (d : dict K V) (keep : K -> bool) (k : K) :
  keep k = true ->
  get eqb (filter (fun kv => keep (fst kv)) d) k = get eqb d k.
Proof.
  intros Hk. induction d as [|[k' v'] d IH]; simpl; [reflexivity|].
  destruct (eqb_spec k k') as [<-|Hne].
  - rewrite Hk. simpl. destruct (eqb_spec k k); congruence.
  - destruct (keep k'); simpl; [|exact IH].
    destruct (eqb_spec k k'); congruence.
Qed.
End DictFacts.

(** ** The per-instance joiner *)

Lemma round2_nan : round2 nan = nan.
Proof. reflexivity. Qed.

Lemma breakdown_unfold (w : World) (project_id : string) :
  get_per_instance_breakdown w project_id
  = (cpu <- cpu_map w project_id ;;
     mem <- mem_map w project_id ;;
     name_map <- vm_record_map w project_id ;;
     Ok (join_rows cpu mem name_map)).
Proof. reflexivity. Qed.

Lemma breakdown_fetched (w : World) (project_id : string)
  (cpu mem : dict (string * string) float) (name_map : dict (option string) Meta) :
  cpu_map w project_id = Ok cpu ->
  mem_map w project_id = Ok mem ->
  vm_record_map w project_id = Ok name_map ->
  get_per_instance_breakdown w project_id = Ok (join_rows cpu mem name_map).
Proof.
  intros Hc Hm Hn. rewrite breakdown_unfold, Hc, Hm, Hn. reflexivity.
Qed.

Lemma row_step_spec (mem : dict (string * string) float)
  (name_map : dict (option string) Meta) (cpu : dict (string * string) float) :
  forall (rows : list Row) (done : list ((string * string) * float)),
    Forall2 (joined mem name_map) done rows ->
    Forall2 (joined mem name_map)
      (done ++ filter (matched name_map) cpu)
      (fold_left (row_step mem name_map) cpu rows).
Proof.
  induction cpu as [|[[inst_id zone] cpu_val] cpu IH]; intros rows done Hd; simpl.
  - now rewrite app_nil_r.
  - unfold matched at 1. simpl.
    destruct (get option_eqb name_map (Some inst_id)) as [meta|] eqn:Hmeta.
    + replace (done ++ ((inst_id, zone), cpu_val) :: filter (matched name_map) cpu)
        with ((done ++ [((inst_id, zone), cpu_val)]) ++ filter (matched name_map) cpu)
        by (now rewrite <- app_assoc).
      apply IH. apply Forall2_app; [exact Hd|].
      constructor; [|constructor].
      exists meta. simpl. rewrite Hmeta. repeat split.
      destruct (get pair_eqb mem (inst_id, zone)); reflexivity.
    + apply IH. exact Hd.
Qed.

Lemma join_rows_joined (cpu mem : dict (string * string) float)
  (name_map : dict (option string) Meta) :
  Forall2 (joined mem name_map) (filter (matched name_map) cpu)
    (join_rows cpu mem name_map).
Proof.
  unfold join_rows.
  apply (row_step_spec mem name_map cpu [] []). constructor.
Qed.

(** Removing the orphaned samples from the CPU map does not change the rows. *)
Lemma join_rows_without_orphans (cpu mem : dict (string * string) float)
  (name_map : dict (option string) Meta) :
  join_rows (filter (matched name_map) cpu) mem name_map
  = join_rows cpu mem name_map.
Proof.
  unfold join_rows. generalize (@nil Row).
  induction cpu as [|[[inst_id zone] cpu_val] cpu IH]; intros rows; simpl.
  - reflexivity.
  - unfold matched at 1. simpl.
    destruct (get option_eqb name_map (Some inst_id)) as [meta|] eqn:Hmeta.
    + simpl. rewrite Hmeta. apply IH.
    + apply IH.
Qed.

(** The rows depend on the memory map through the keys of the CPU map only. *)
Lemma join_rows_mem_ext (cpu mem mem' : dict (string * string) float)
  (name_map : dict (option string) Meta) :
  (forall item, In item cpu ->
     get pair_eqb mem (fst item) = get pair_eqb mem' (fst item)) ->
  join_rows cpu mem name_map = join_rows cpu mem' name_map.
Proof.
  unfold join_rows. generalize (@nil Row).
  induction cpu as [|[[inst_id zone] cpu_val] cpu IH]; intros rows Hext; simpl.
  - reflexivity.
  - pose proof (Hext ((inst_id, zone), cpu_val) (or_introl eq_refl)) as H0.
    simpl in H0. rewrite H0.
    apply IH. intros item Hin. apply Hext. now right.
Qed.

Lemma join_rows_without_memory_only (cpu mem : dict (string * string) float)
  (name_map : dict (option string) Meta) :
  join_rows cpu (without_memory_only mem cpu) name_map
  = join_rows cpu mem name_map.
Proof.
  apply join_rows_mem_ext. intros [k v] Hin. simpl.
  unfold without_memory_only.
  apply (get_filter_keys _ _ pair_eqb pair_eqb_spec mem
           (fun k => match get pair_eqb cpu k with
                     | Some _ => true
                     | None => false
                     end)).
  pose proof (in_get _ _ pair_eqb pair_eqb_spec cpu k v Hin) as Hk.
  destruct (get pair_eqb cpu k); congruence.
Qed.

Lemma Forall2_in_right {A B : Type} (R : A -> B -> Prop)
  (l : list A) (l' : list B) :
  Forall2 R l l' ->
  forall b : B, In b l' -> exists a : A, In a l /\ R a b.
Proof.
  induction 1 as [|a b l l' Hab _ IH]; intros b0 Hin; simpl in *; [tauto|].
  destruct Hin as [<-|Hin].
  - exists a. auto.
  - destruct (IH b0 Hin) as (a0 & Ha0 & Hr). exists a0. auto.
Qed.

Lemma rows_come_from_cpu (cpu mem : dict (string * string) float)
  (name_map : dict (option string) Meta) :
  forall row : Row,
    In row (join_rows cpu mem name_map) ->
    exists item, In item cpu /\ joined mem name_map item row.
Proof.
  intros row Hin.
  destruct (Forall2_in_right _ _ _ (join_rows_joined cpu mem name_map) row Hin)
    as (item & Hitem & Hj).
  apply filter_In in Hitem. exists item. tauto.
Qed.

(** C3.  A row is emitted only for a CPU sample whose instance id is a key
    of the VM record map fetched in the same call, and carries the name,
    zone and machine type of that record; there are as many rows as such
    samples, and the samples whose id is not in the map (orphans) add no
    row: the result is the same without them, and empty when every sample
    is an orphan. *)
Theorem breakdown_rows_need_vm_record
  (w : World) (project_id : string)
  (cpu mem : dict (string * string) float) (name_map : dict (option string) Meta) :
  cpu_map w project_id = Ok cpu ->
  mem_map w project_id = Ok mem ->
  vm_record_map w project_id = Ok name_map ->
  exists rows : list Row,
    get_per_instance_breakdown w project_id = Ok rows
    /\ (forall row : Row,
          In row rows ->
          exists (item : (string * string) * float) (meta : Meta),
            In item cpu
            /\ get option_eqb name_map (Some (fst (fst item))) = Some meta
            /\ instance row = meta_name meta
            /\ zone row = meta_zone meta
            /\ machineType row = meta_machineType meta)
    /\ List.length rows = List.length (filter (matched name_map) cpu)
    /\ rows = join_rows (filter (matched name_map) cpu) mem name_map
    /\ (Forall
          (fun item => get option_eqb name_map (Some (fst (fst item))) = None)
          cpu ->
        rows = []).
Proof.
  intros Hc Hm Hn. exists (join_rows cpu mem name_map).
  pose proof (join_rows_joined cpu mem name_map) as HJ.
  split; [now apply breakdown_fetched|].
  split; [|split; [|split]].
  - intros row Hin.
    destruct (rows_come_from_cpu cpu mem name_map row Hin)
      as (item & Hitem & meta & Hmeta & Hi & Hz & Ht & _).
    exists item, meta. auto.
  - symmetry. exact (Forall2_length HJ).
  - symmetry. apply join_rows_without_orphans.
  - intros Hall.
    assert (Hnil : filter (matched name_map) cpu = []).
    { clear HJ Hc. induction Hall as [|item l Hitem _ IH]; simpl; [reflexivity|].
      unfold matched at 1. rewrite Hitem. exact IH. }
    rewrite Hnil in HJ. now inversion HJ.
Qed.

(** C4.  Row by row, in the order of the CPU samples that have a VM
    record: the CPU percentage is the sample times 100 rounded to two
    decimals, the memory percentage is the memory sample under the same
    (instance id, zone) key rounded to two decimals, and not-a-number when
    the memory map has no such key.  A sample 0.4567 gives 45.67. *)
Theorem breakdown_row_values
  (w : World) (project_id : string)
  (cpu mem : dict (string * string) float) (name_map : dict (option string) Meta) :
  cpu_map w project_id = Ok cpu ->
  mem_map w project_id = Ok mem ->
  vm_record_map w project_id = Ok name_map ->
  exists rows : list Row,
    get_per_instance_breakdown w project_id = Ok rows
    /\ Forall2
         (fun item row =>
            cpu_utilization_pct row = round2 (snd item * 100)%float
            /\ memory_used_pct row
               = match get pair_eqb mem (fst item) with
                 | Some v => round2 v
                 | None => nan
                 end)
         (filter (matched name_map) cpu) rows
    /\ round2 (0.4567 * 100)%float = 45.67%float.
Proof.
  intros Hc Hm Hn. exists (join_rows cpu mem name_map).
  split; [now apply breakdown_fetched|]. split; [|reflexivity].
  eapply Forall2_impl; [|apply join_rows_joined].
  intros item row (meta & _ & _ & _ & _ & Hcpu & Hmem). split; eassumption.
Qed.

(** C7.  The rows do not depend on the memory samples whose key has no
    CPU sample: the result is the one computed from the memory map without
    those keys; every row comes from a key of the CPU map, and there are
    at most as many rows as CPU keys. *)
Theorem memory_only_keys_emit_no_row
  (w : World) (project_id : string)
  (cpu mem : dict (string * string) float) (name_map : dict (option string) Meta) :
  cpu_map w project_id = Ok cpu ->
  mem_map w project_id = Ok mem ->
  vm_record_map w project_id = Ok name_map ->
  exists rows : list Row,
    get_per_instance_breakdown w project_id = Ok rows
    /\ rows = join_rows cpu (without_memory_only mem cpu) name_map
    /\ (forall row : Row,
          In row rows ->
          exists item, In (fst item) (keys cpu) /\ joined mem name_map item row)
    /\ List.length rows <= List.length cpu.
Proof.
  intros Hc Hm Hn. exists (join_rows cpu mem name_map).
  split; [now apply breakdown_fetched|]. split; [|split].
  - symmetry. apply join_rows_without_memory_only.
  - intros row Hin.
    destruct (rows_come_from_cpu cpu mem name_map row Hin) as (item & Hitem & Hj).
    exists item. split; [|exact Hj]. unfold keys. now apply in_map.
  - rewrite <- (Forall2_length (join_rows_joined cpu mem name_map)).
    apply filter_length_le.
Qed.

(** C10.  The count that [list_running_vms] returns is the length of the
    list it returns. *)
Theorem list_running_vms_count_is_length
  (w : World) (project_id : string) (n : nat) (vms : list VM) :
  list_running_vms w project_id = Ok (n, vms) -> n = List.length vms.
Proof.
  unfold list_running_vms.
  destruct (running_loop (aggregatedList w in_list_running_vms project_id) [])
    as [result|e];
    simpl; intros H; [|discriminate].
  injection H as <- <-. reflexivity.
Qed.

(** The lister returns a result or raises the inventory's error. *)
Lemma list_running_vms_total (w : World) (project_id : string) :
  (exists vms : list VM,
     list_running_vms w project_id = Ok (List.length vms, vms))
  \/ (exists e : exn, list_running_vms w project_id = Raise e).
Proof.
  unfold list_running_vms.
  destruct (responses (aggregatedList w in_list_running_vms project_id)) as [pages|] eqn:Hp.
  - left. rewrite (running_loop_spec _ [] pages Hp). simpl. eauto.
  - right. destruct (running_loop_fails _ [] Hp) as (e & ->). simpl. eauto.
Qed.

(** ** The VM record map *)

Lemma add_names_spec (resp : Response) (name_map : dict (option string) Meta) :
  add_names resp name_map
  = fold_left record_instance (page_instances resp) name_map.
Proof.
  unfold add_names, page_instances. revert name_map.
  induction (resp_items resp) as [|zd l IH]; intros name_map; simpl.
  - reflexivity.
  - rewrite fold_left_app. apply IH.
Qed.

Lemma name_loop_spec (req : Listing) :
  forall (name_map : dict (option string) Meta) (pages : list Response),
    responses req = Some pages ->
    name_loop req name_map
    = Ok (fold_left record_instance (all_instances pages) name_map).
Proof.
  induction req as [msg|resp|resp next IH]; intros name_map pages H;
    simpl in *.
  - discriminate.
  - injection H as <-. unfold all_instances. simpl.
    now rewrite app_nil_r, add_names_spec.
  - destruct (responses next) as [pages'|]; [|discriminate].
    injection H as <-.
    rewrite (IH _ pages' eq_refl), add_names_spec.
    unfold all_instances. simpl. now rewrite fold_left_app.
Qed.

Lemma record_instance_keys (l : list Instance) :
  forall (name_map : dict (option string) Meta) (k : option string),
    get option_eqb (fold_left record_instance l name_map) k <> None
    <-> get option_eqb name_map k <> None \/ In k (map inst_id l).
Proof.
  induction l as [|inst l IH]; intros name_map k; simpl.
  - tauto.
  - rewrite IH. unfold record_instance.
    destruct (option_eqb_spec k (inst_id inst)) as [->|Hk].
    + rewrite (get_set_same _ _ option_eqb option_eqb_spec).
      split; [auto|]. intros _. left. discriminate.
    + rewrite (get_set_other _ _ option_eqb option_eqb_spec) by exact Hk.
      split; [tauto|]. intros [H|[H|H]]; [tauto|congruence|tauto].
Qed.

(** The VM record map has a record for every listed instance, whatever
    its status, and for nothing else. *)
Lemma vm_record_map_keys (w : World) (project_id : string)
  (pages : list Response) :
  responses (aggregatedList w in_get_per_instance_breakdown project_id) = Some pages ->
  exists name_map : dict (option string) Meta,
    vm_record_map w project_id = Ok name_map
    /\ forall id : string,
         get option_eqb name_map (Some id) <> None
         <-> exists inst : Instance,
               In inst (all_instances pages) /\ inst_id inst = Some id.
Proof.
  intros Hp. unfold vm_record_map.
  rewrite (name_loop_spec _ [] pages Hp). eexists. split; [reflexivity|].
  intros id. rewrite record_instance_keys. simpl. rewrite in_map_iff.
  split.
  - intros [H|(inst & Hid & Hin)]; [congruence|]. exists inst. auto.
  - intros (inst & Hin & Hid). right. exists inst. auto.
Qed.

(** Without a running instance the lister returns count 0 and no record. *)
Lemma no_running_instance_lists_nothing (w : World) (project_id : string)
  (pages : list Response) :
  responses (aggregatedList w in_list_running_vms project_id) = Some pages ->
  Forall (fun inst => inst_status inst <> Some "RUNNING") (all_instances pages) ->
  list_running_vms w project_id = Ok (0, []).
Proof.
  intros Hp Hall. unfold list_running_vms.
  rewrite (running_loop_spec _ [] pages Hp).
  assert (Hnil : filter is_running (all_instances pages) = []).
  { induction Hall as [|inst l Hinst _ IH]; simpl; [reflexivity|].
    destruct (is_running inst) eqn:Hr; [|exact IH].
    apply is_running_iff in Hr. contradiction. }
  rewrite Hnil. reflexivity.
Qed.

(** With an empty inventory the breakdown has no row. *)
Lemma empty_inventory_no_rows (w : World) (project_id : string)
  (cpu mem : dict (string * string) float) (pages : list Response) :
  cpu_map w project_id = Ok cpu ->
  mem_map w project_id = Ok mem ->
  responses (aggregatedList w in_get_per_instance_breakdown project_id) = Some pages ->
  all_instances pages = [] ->
  get_per_instance_breakdown w project_id = Ok [].
Proof.
  intros Hc Hm Hp Hnil.
  rewrite (breakdown_fetched w project_id cpu mem []); [|assumption..|].
  - pose proof (join_rows_joined cpu mem []) as HJ.
    assert (Hf : filter (matched []) cpu = [])
      by (clear; induction cpu as [|item cpu IH]; [reflexivity|exact IH]).
    rewrite Hf in HJ. now inversion HJ.
  - unfold vm_record_map. rewrite (name_loop_spec _ [] pages Hp), Hnil.
    reflexivity.
Qed.

(** ** The example worlds, evaluated *)

(** The three values fetched for [km-prod] in [demo_world]. *)
Lemma demo_world_fetches :
  cpu_map demo_world "km-prod" = Ok demo_cpu
  /\ mem_map demo_world "km-prod" = Ok demo_mem
  /\ vm_record_map demo_world "km-prod" = Ok demo_names.
Proof. repeat split; vm_compute; reflexivity. Qed.

(** The three pages of [demo_world]: the two running instances, one
    record each. *)
Lemma list_running_vms_accumulates_pages_witness :
  responses (aggregatedList demo_world in_list_running_vms "km-prod")
  = Some demo_pages
  /\ exists vms : list VM,
       list_running_vms demo_world "km-prod" = Ok (List.length vms, vms)
       /\ Forall2 records [web_1; api_1] vms
       /\ NoDup (map vm_id vms).
Proof.
  split; [reflexivity|].
  destruct (list_running_vms_accumulates_pages
              demo_world "km-prod" demo_pages eq_refl)
    as (vms & Hvms & Hrec & Hnd).
  exists vms. split; [exact Hvms|]. split; [exact Hrec|].
  apply Hnd. simpl.
  repeat constructor; simpl; intuition discriminate.
Defined.

(** The count and the list in [demo_world]. *)
Lemma list_running_vms_count_is_length_witness :
  list_running_vms demo_world "km-prod" = Ok (2, [vm_of web_1; vm_of api_1])
  /\ 2 = List.length [vm_of web_1; vm_of api_1].
Proof.
  split; [reflexivity|].
  exact (list_running_vms_count_is_length
           demo_world "km-prod" 2 [vm_of web_1; vm_of api_1] eq_refl).
Defined.

(** In [demo_world] the CPU sample of instance 999 has no VM record:
    two rows, those of the two other samples. *)
Lemma breakdown_rows_need_vm_record_witness :
  exists rows : list Row,
    get_per_instance_breakdown demo_world "km-prod" = Ok rows
    /\ List.length rows = 2
    /\ rows = join_rows [ (("123", "us-central1-a"), 0.4567%float);
                          (("789", "asia-south1-a"), 0.031%float) ]
                demo_mem demo_names.
Proof.
  destruct demo_world_fetches as (Hc & Hm & Hn).
  destruct (breakdown_rows_need_vm_record
              demo_world "km-prod" demo_cpu demo_mem demo_names Hc Hm Hn)
    as (rows & Hrows & _ & Hlen & Hwo & _).
  exists rows. split; [exact Hrows|]. split; [exact Hlen|exact Hwo].
Defined.

(** The rows of [demo_world]: 0.4567 gives 45.67, the instance without
    memory sample gets not-a-number. *)
Lemma breakdown_row_values_witness :
  exists rows : list Row,
    get_per_instance_breakdown demo_world "km-prod" = Ok rows
    /\ rows = demo_rows.
Proof.
  destruct demo_world_fetches as (Hc & Hm & Hn).
  destruct (breakdown_row_values
              demo_world "km-prod" demo_cpu demo_mem demo_names Hc Hm Hn)
    as (rows & Hrows & _ & _).
  exists rows. split; [exact Hrows|].
  assert (Hd : get_per_instance_breakdown demo_world "km-prod" = Ok demo_rows)
    by (vm_compute; reflexivity).
  rewrite Hrows in Hd. now injection Hd.
Defined.

(** In [demo_world] instance 555 has a memory sample and no CPU sample:
    the rows are those computed without it. *)
Lemma memory_only_keys_emit_no_row_witness :
  get pair_eqb demo_mem ("555", "us-central1-a") = Some 12.5%float
  /\ get pair_eqb demo_cpu ("555", "us-central1-a") = None
  /\ exists rows : list Row,
       get_per_instance_breakdown demo_world "km-prod" = Ok rows
       /\ rows = join_rows demo_cpu [ (("123", "us-central1-a"), 37.256%float) ]
                   demo_names.
Proof.
  split; [reflexivity|]. split; [reflexivity|].
  destruct demo_world_fetches as (Hc & Hm & Hn).
  destruct (memory_only_keys_emit_no_row
              demo_world "km-prod" demo_cpu demo_mem demo_names Hc Hm Hn)
    as (rows & Hrows & Hwo & _).
  exists rows. split; [exact Hrows|exact Hwo].
Defined.

(** C5.  A project whose only instance is stopped has no running
    instance, and the lister returns count 0 and the empty list; the
    per-instance breakdown still returns a row for the stopped instance,
    because its VM record map is built from every listed instance,
    whatever its status. *)
Theorem stopped_instance_still_reported :
  Forall (fun inst => inst_status inst <> Some "RUNNING")
    (all_instances [page "europe-west1-b" [db_1]])
  /\ (forall site : ListingCall,
        responses (aggregatedList stopped_world site "km-prod")
        = Some [page "europe-west1-b" [db_1]])
  /\ list_running_vms stopped_world "km-prod" = Ok (0, [])
  /\ get_per_instance_breakdown stopped_world "km-prod"
     = Ok [ {| instance := "db-1";
               zone := "europe-west1-b";
               machineType := "n2-standard-4";
               cpu_utilization_pct := 2%float;
               memory_used_pct := nan |} ].
Proof.
  split; [|split; [|split]].
  - repeat constructor. discriminate.
  - reflexivity.
  - reflexivity.
  - vm_compute. reflexivity.
Qed.

(** ** The command-line report *)

Lemma emit_nil (c : Console) : emit c [] = c.
Proof. destruct c. unfold emit. simpl. now rewrite app_nil_r. Qed.

Lemma emit_emit (c : Console) (out out' : list entry) :
  emit (emit c out) out' = emit c (out ++ out').
Proof. unfold emit. simpl. now rewrite app_assoc. Qed.

Lemma print_emit (text : string) (c : Console) :
  print text c = (Ok tt, emit c [Printed text]).
Proof. reflexivity. Qed.

Lemma for_each_print (f : Row -> string) (l : list Row) (c : Console) :
  for_each l (fun r => print (f r)) c
  = (Ok tt, emit c (map (fun r => Printed (f r)) l)).
Proof.
  revert c. induction l as [|r l IH]; intros c; simpl.
  - now rewrite emit_nil.
  - unfold io_bind. rewrite print_emit, IH, emit_emit. reflexivity.
Qed.

Lemma io_bind_ok {A B : Type} (m : IO A) (k : A -> IO B)
  (c c' : Console) (a : A) :
  m c = (Ok a, c') -> io_bind m k c = k a c'.
Proof. unfold io_bind. now intros ->. Qed.

Lemma io_bind_raise {A B : Type} (m : IO A) (k : A -> IO B)
  (c c' : Console) (e : exn) :
  m c = (Raise e, c') -> io_bind m k c = (Raise e, c').
Proof. unfold io_bind. now intros ->. Qed.

Lemma caught_by_dec {A : Type} (cls : exn -> bool) (r : outcome A) :
  caught_by cls r \/ exists e : exn, r = Raise e /\ cls e = false.
Proof.
  destruct r as [a|e].
  - left. intros e H. discriminate.
  - destruct (cls e) eqn:He.
    + left. intros e' H. now injection H as <-.
    + right. now exists e.
Qed.

(** A call under [try ... except cls] that raises an exception of another
    class: the exception goes on, nothing is printed. *)
Lemma unguarded_call {A : Type} (m : outcome A) (cls : exn -> bool)
  (handler : exn -> IO A) (c : Console) (e : exn) :
  m = Raise e -> cls e = false ->
  try_except (call m) cls handler c = (Raise e, c).
Proof. intros -> He. unfold try_except, call. now rewrite He. Qed.

(** A call under [try ... except cls], where [cls] covers what it raises:
    its value or the default, and the message printed. *)
Lemma guarded_call {A : Type} (m : outcome A) (cls : exn -> bool)
  (prefix project_id : string) (d : A) (c : Console) :
  caught_by cls m ->
  try_except (call m) cls
    (fun e =>
       io_bind (print (prefix ++ project_id ++ ": " ++ str_exn e)%string)
         (fun _ => ret d)) c
  = (Ok (or_default m d), emit c (caught prefix project_id m)).
Proof.
  intros H. unfold try_except, call.
  destruct m as [a|e]; simpl.
  - now rewrite emit_nil.
  - now rewrite (H e eq_refl).
Qed.

(** The table part of [run_for_project], from the test on [vm_count] on. *)
Lemma table_part_spec (w : World) (project_id : string) (vm_count : nat)
  (c : Console) :
  (if Nat.eqb vm_count 0 then ret tt
   else
     io_bind (print (nl ++ "-- Per-instance (avg of last 10m) --")%string)
       (fun _ =>
          io_bind (call (get_per_instance_breakdown w project_id))
            (fun rows =>
               match rows with
               | [] =>
                   print "No per-instance metrics found (ensure Ops Agent is installed)."
               | _ =>
                   io_bind (print table_header)
                     (fun _ =>
                        for_each (sorted sort_key pair_ltb rows)
                          (fun r => print (table_line r)))
               end))) c
  = (fst (table_part w project_id vm_count),
     emit c (snd (table_part w project_id vm_count))).
Proof.
  unfold table_part.
  destruct vm_count as [|n]; cbn [Nat.eqb fst snd].
  - unfold ret. now rewrite emit_nil.
  - unfold io_bind at 1. rewrite print_emit. unfold io_bind at 1. unfold call.
    destruct (get_per_instance_breakdown w project_id) as [rows|e];
      cbn [fst snd]; [|reflexivity].
    destruct rows as [|r rows]; cbn [fst snd].
    + rewrite print_emit, emit_emit. reflexivity.
    + unfold io_bind. rewrite print_emit, for_each_print, !emit_emit.
      reflexivity.
Qed.

(** When the errors of the guarded calls are of the classes caught,
    [run_for_project] returns what [project_report] describes, and writes
    it to standard output after what was there. *)
Lemma run_for_project_report (w : World) (project_id : string) (c : Console) :
  contained w project_id ->
  run_for_project w project_id c
  = (fst (project_report w project_id),
     emit c (snd (project_report w project_id))).
Proof.
  intros (Hcpu & Hmem & Hlist).
  unfold run_for_project, project_report.
  erewrite io_bind_ok by (apply guarded_call; exact Hcpu).
  erewrite io_bind_ok by (apply guarded_call; exact Hmem).
  erewrite io_bind_ok by (apply guarded_call; exact Hlist).
  destruct (or_default (list_running_vms w project_id) (0, []))
    as [vm_count vms].
  do 5 (erewrite io_bind_ok by apply print_emit).
  rewrite table_part_spec, !emit_emit. reflexivity.
Qed.

(** An exception of another class raised by a guarded call leaves
    [run_for_project] at once. *)
Lemma run_uncaught_cpu (w : World) (project_id : string) (c : Console)
  (e : exn) :
  get_project_cpu_avg w project_id = Raise e ->
  isinstance_GoogleAPICallError e = false ->
  run_for_project w project_id c = (Raise e, c).
Proof.
  intros H He. unfold run_for_project.
  erewrite io_bind_raise by (apply unguarded_call; eassumption).
  reflexivity.
Qed.

Lemma run_uncaught_mem (w : World) (project_id : string) (c : Console)
  (e : exn) :
  caught_by isinstance_GoogleAPICallError (get_project_cpu_avg w project_id) ->
  get_project_mem_avg w project_id = Raise e ->
  isinstance_GoogleAPICallError e = false ->
  fst (run_for_project w project_id c) = Raise e.
Proof.
  intros Hcpu H He. unfold run_for_project.
  erewrite io_bind_ok by (apply guarded_call; exact Hcpu).
  erewrite io_bind_raise by (apply unguarded_call; eassumption).
  reflexivity.
Qed.

Lemma run_uncaught_list (w : World) (project_id : string) (c : Console)
  (e : exn) :
  caught_by isinstance_GoogleAPICallError (get_project_cpu_avg w project_id) ->
  caught_by isinstance_GoogleAPICallError (get_project_mem_avg w project_id) ->
  list_running_vms w project_id = Raise e ->
  isinstance_HttpError e = false ->
  fst (run_for_project w project_id c) = Raise e.
Proof.
  intros Hcpu Hmem H He. unfold run_for_project.
  erewrite io_bind_ok by (apply guarded_call; exact Hcpu).
  erewrite io_bind_ok by (apply guarded_call; exact Hmem).
  erewrite io_bind_raise by (apply unguarded_call; eassumption).
  reflexivity.
Qed.

Lemma breakdown_returns_ok (w : World) (project_id : string) :
  breakdown_returns w project_id -> fst (project_report w project_id) = Ok tt.
Proof.
  unfold breakdown_returns, project_report, table_part. cbn [fst].
  intros [->|(rows & ->)]; [reflexivity|].
  destruct (fst (or_default (list_running_vms w project_id) (0, [])));
    [reflexivity|].
  destruct rows; reflexivity.
Qed.

Lemma for_each_project (w : World) (ps : list string) :
  (forall pid : string, In pid ps -> contained w pid) ->
  (forall pid : string, In pid ps -> breakdown_returns w pid) ->
  forall c : Console,
    for_each ps (fun pid => run_for_project w pid) c
    = (Ok tt, emit c (flat_map (fun pid => snd (project_report w pid)) ps)).
Proof.
  induction ps as [|pid ps IH]; intros Hcs Hps c; simpl.
  - unfold ret. now rewrite emit_nil.
  - erewrite io_bind_ok.
    + rewrite IH by (intros p Hp; first [apply Hcs|apply Hps]; now right).
      rewrite emit_emit. reflexivity.
    + rewrite run_for_project_report by (apply Hcs; now left).
      rewrite (breakdown_returns_ok w pid) by (apply Hps; now left).
      reflexivity.
Qed.

Lemma show_cpu_nan : show_cpu nan = "N/A".
Proof. reflexivity. Qed.

Lemma show_mem_nan : show_mem nan = "N/A".
Proof. reflexivity. Qed.

(** C1 (as amended).  In batch mode and in single-project mode, for every
    requested project whose guarded calls raise nothing but their API
    errors ([GoogleAPICallError] for the project-wide CPU and memory
    queries, [HttpError] for the instance listing), such an error is
    caught, whatever the later per-instance part does: its message is
    printed on standard output, standard error is not written, the
    neutral default (not-a-number, count 0 and the empty list) takes the
    place of the value, and the summary of the project is printed with
    it.  When moreover the per-instance breakdown of every requested
    project returns or is not called, every requested project is
    reported, in order, and the run ends normally. *)
Theorem guarded_errors_do_not_stop_the_batch (w : World) (args : Args) :
  all args = true \/ truthy (project args) = true ->
  (forall pid : string, In pid (batch args) -> contained w pid) ->
  (forall (pid : string) (c : Console),
     In pid (batch args) ->
     snd (run_for_project w pid c) = emit c (snd (project_report w pid))
     /\ In (Printed ("Project: " ++ pid)%string) (snd (project_report w pid))
     /\ (forall msg : string,
           get_project_cpu_avg w pid = Raise (GoogleAPICallError msg) ->
           In (Printed ("[!] CPU query failed for " ++ pid ++ ": " ++ msg)%string)
             (snd (project_report w pid))
           /\ In (Printed "Average CPU Utilization: N/A")
                (snd (project_report w pid)))
     /\ (forall msg : string,
           get_project_mem_avg w pid = Raise (GoogleAPICallError msg) ->
           In (Printed ("[!] Memory query failed for " ++ pid ++ ": " ++ msg)%string)
             (snd (project_report w pid))
           /\ In (Printed "Average Memory Used: N/A")
                (snd (project_report w pid)))
     /\ (forall msg : string,
           list_running_vms w pid = Raise (HttpError msg) ->
           In (Printed ("[!] VM list failed for " ++ pid ++ ": " ++ msg)%string)
             (snd (project_report w pid))
           /\ In (Printed "RUNNING VMs: 0") (snd (project_report w pid))))
  /\ ((forall pid : string, In pid (batch args) -> breakdown_returns w pid) ->
      forall c : Console,
        main w args c
        = (Ok tt,
           emit c (flat_map (fun pid => snd (project_report w pid))
                     (batch args)))).
Proof.
  intros Hmode Hcont. split.
  - intros pid c Hin.
    split; [now rewrite run_for_project_report by (now apply Hcont)|].
    unfold project_report. cbn [snd].
    split; [|split; [|split]].
    + rewrite !in_app_iff. do 3 right. left. simpl. auto.
    + intros msg ->. cbn [caught or_default str_exn]. split.
      * left. reflexivity.
      * rewrite !in_app_iff. do 3 right. left. simpl. auto.
    + intros msg ->. cbn [caught or_default str_exn]. split.
      * rewrite !in_app_iff. right. left. now left.
      * rewrite !in_app_iff. do 3 right. left. simpl. auto.
    + intros msg ->. cbn [caught or_default str_exn fst]. split.
      * rewrite !in_app_iff. do 2 right. left. now left.
      * rewrite !in_app_iff. do 3 right. left. simpl. auto 6.
  - intros Hret c. unfold main, batch in *. destruct (all args).
    + now apply for_each_project.
    + destruct Hmode as [Hall|Hp]; [discriminate|]. rewrite Hp in *.
      rewrite run_for_project_report by (apply Hcont; now left).
      rewrite (breakdown_returns_ok w _) by (apply Hret; now left).
      simpl. now rewrite app_nil_r.
Qed.

(** In [demo_world] and in [outage_world] the guarded calls raise nothing
    but their API errors. *)
Lemma demo_world_contained (pid : string) :
  In pid (batch all_projects) -> contained demo_world pid.
Proof.
  intros Hin. simpl in Hin.
  destruct Hin as [<-|[<-|[<-|[<-|[<-|[<-|[]]]]]]].
  all: repeat split; intros e H; vm_compute in H;
    first [discriminate H | injection H as <-; reflexivity].
Qed.

Lemma outage_world_contained (pid : string) :
  In pid (batch all_projects) -> contained outage_world pid.
Proof.
  intros Hin. simpl in Hin.
  destruct Hin as [<-|[<-|[<-|[<-|[<-|[<-|[]]]]]]].
  all: repeat split; intros e H; vm_compute in H;
    first [discriminate H | injection H as <-; reflexivity].
Qed.

(** In [outage_world] the breakdown is not called for the second project
    and returns for the others. *)
Lemma outage_world_breakdowns (pid : string) :
  In pid (batch all_projects) -> breakdown_returns outage_world pid.
Proof.
  intros Hin. simpl in Hin.
  destruct Hin as [<-|[<-|[<-|[<-|[<-|[<-|[]]]]]]].
  2: left; vm_compute; reflexivity.
  all: right; eexists; vm_compute; reflexivity.
Qed.

(** The batch in [demo_world], where the monitoring service is down for
    the second project: its two errors are caught and printed on
    standard output, and its summary shows N/A.  The batch in
    [outage_world], where its breakdown is not called: the run reaches
    the last project. *)
Lemma guarded_errors_do_not_stop_the_batch_witness :
  (In (Printed "[!] CPU query failed for km-prod-cn-443607: 503 The service is currently unavailable.")
     (stdout (snd (run_for_project demo_world "km-prod-cn-443607" empty_console)))
   /\ In (Printed "Average CPU Utilization: N/A")
        (stdout (snd (run_for_project demo_world "km-prod-cn-443607" empty_console)))
   /\ stderr (snd (run_for_project demo_world "km-prod-cn-443607" empty_console))
      = [])
  /\ fst (main outage_world all_projects empty_console) = Ok tt.
Proof.
  split.
  - destruct (guarded_errors_do_not_stop_the_batch demo_world all_projects
                (or_introl eq_refl) demo_world_contained)
      as [Hper _].
    destruct (Hper "km-prod-cn-443607" empty_console) as (Hrun & _ & Hcpu & _);
      [simpl; tauto|].
    destruct (Hcpu "503 The service is currently unavailable." eq_refl)
      as [Hmsg Hna].
    rewrite Hrun. cbn [emit stdout stderr empty_console app].
    repeat split; assumption.
  - destruct (guarded_errors_do_not_stop_the_batch outage_world all_projects
                (or_introl eq_refl) outage_world_contained)
      as [_ Hbatch].
    now rewrite (Hbatch outage_world_breakdowns empty_console).
Defined.

(** C1, as stated, fails in [outage_world], where every call for the
    second project of the batch raises its API error and no per-instance
    breakdown fails: the errors are caught and the run goes through all
    projects, but the messages are printed on standard output and nothing
    is logged on standard error. *)
Lemma caught_errors_are_printed_on_stdout :
  get_project_cpu_avg outage_world "km-prod-cn-443607"
  = Raise (GoogleAPICallError "503 The service is currently unavailable.")
  /\ fst (main outage_world all_projects empty_console) = Ok tt
  /\ In (Printed "[!] CPU query failed for km-prod-cn-443607: 503 The service is currently unavailable.")
       (stdout (snd (main outage_world all_projects empty_console)))
  /\ ~ In (Printed "[!] CPU query failed for km-prod-cn-443607: 503 The service is currently unavailable.")
         (stderr (snd (main outage_world all_projects empty_console)))
  /\ stderr (snd (main outage_world all_projects empty_console)) = [].
Proof.
  split; [reflexivity|]. split; [vm_compute; reflexivity|].
  split; [|split; [|vm_compute; reflexivity]].
  - vm_compute. do 9 right. left. reflexivity.
  - intros H. vm_compute in H. exact H.
Qed.

(** ** Two runs *)

Section TwoRuns.
Variables (w1 w2 : World) (project_id : string).
Hypothesis Hsame : same_upstream project_id w1 w2.

Lemma same_request (metric_type : string) :
  _ts_request_common w1 project_id metric_type
  = _ts_request_common w2 project_id metric_type.
Proof.
  destruct Hsame as (Hclock & _).
  unfold _ts_request_common, _now_interval. now rewrite Hclock.
Qed.

Lemma same_series (req : ListTimeSeriesRequest) :
  req_name req = ("projects/" ++ project_id)%string ->
  call_list_time_series w1 req = call_list_time_series w2 req.
Proof.
  destruct Hsame as (_ & Hts & _). intros Hreq.
  unfold call_list_time_series. now rewrite (Hts req Hreq).
Qed.

Lemma same_cpu_avg :
  get_project_cpu_avg w1 project_id = get_project_cpu_avg w2 project_id.
Proof.
  unfold get_project_cpu_avg. rewrite same_request.
  now rewrite same_series by reflexivity.
Qed.

Lemma same_mem_avg :
  get_project_mem_avg w1 project_id = get_project_mem_avg w2 project_id.
Proof.
  unfold get_project_mem_avg. rewrite same_request.
  now rewrite same_series by reflexivity.
Qed.

Lemma same_listing :
  list_running_vms w1 project_id = list_running_vms w2 project_id.
Proof.
  destruct Hsame as (_ & _ & Hinv).
  unfold list_running_vms. now rewrite Hinv.
Qed.

Lemma same_breakdown :
  get_per_instance_breakdown w1 project_id
  = get_per_instance_breakdown w2 project_id.
Proof.
  destruct Hsame as (Hclock & _ & Hinv).
  rewrite !breakdown_unfold.
  unfold cpu_map, mem_map, vm_record_map, breakdown_interval, fetch.
  rewrite Hclock, Hinv.
  now rewrite !same_series by reflexivity.
Qed.

Lemma same_project_report :
  project_report w1 project_id = project_report w2 project_id.
Proof.
  unfold project_report, table_part.
  now rewrite same_cpu_avg, same_mem_avg, same_listing, same_breakdown.
Qed.
End TwoRuns.

(** C9.  Two runs of the per-project report that read the same clock
    value and get the same answers to the requests made for the project
    return the same outcome and print the same lines. *)
Theorem same_upstream_same_output
  (w1 w2 : World) (project_id : string) (c : Console) :
  same_upstream project_id w1 w2 ->
  run_for_project w1 project_id c = run_for_project w2 project_id c.
Proof.
  intros Hsame. unfold run_for_project.
  rewrite (same_cpu_avg w1 w2 project_id Hsame).
  rewrite (same_mem_avg w1 w2 project_id Hsame).
  rewrite (same_listing w1 w2 project_id Hsame).
  rewrite (same_breakdown w1 w2 project_id Hsame).
  reflexivity.
Qed.

(** [demo_world] and [demo_world_again] answer alike. *)
Lemma demo_worlds_same_upstream :
  same_upstream "km-prod" demo_world demo_world_again.
Proof.
  split; [reflexivity|]. split; [|reflexivity].
  intros req _. simpl. destruct (demo_metrics req); reflexivity.
Qed.

(** The report of [km-prod] is the same in both. *)
Lemma same_upstream_same_output_witness :
  run_for_project demo_world "km-prod" empty_console
  = run_for_project demo_world_again "km-prod" empty_console.
Proof.
  exact (same_upstream_same_output demo_world demo_world_again "km-prod"
           empty_console demo_worlds_same_upstream).
Defined.

(** ** The web form *)

(** C6 (as amended).  The route computes a result for whatever non-empty
    project id the form carries, listed or not: when the four queries
    return, the page carries their values under that project id; it
    carries no result when the form has no project id or an empty one.
    The six known identifiers are only handed to the template. *)
Theorem index_result_for_any_project_id
  (w : World) (form : dict string string) (page : App.Page) :
  App.index w form = Ok page ->
  App.projects page = App.PROJECTS
  /\ List.length App.PROJECTS = 6
  /\ match get String.eqb form "project_id" with
     | Some (String a s) =>
         let project_id := String a s in
         exists (cpu mem : float) (n : nat) (vms : list VM) (rows : list Row),
           get_project_cpu_avg w project_id = Ok cpu
           /\ get_project_mem_avg w project_id = Ok mem
           /\ list_running_vms w project_id = Ok (n, vms)
           /\ get_per_instance_breakdown w project_id = Ok rows
           /\ App.result page
              = Some {| App.project := project_id;
                        App.cpu_avg := show_cpu cpu;
                        App.mem_avg := show_mem mem;
                        App.vm_count := n;
                        App.instances := rows |}
     | _ => App.result page = None
     end.
Proof.
  unfold App.index. intros H.
  destruct (get String.eqb form "project_id") as [[|a s]|].
  - injection H as <-. auto.
  - cbv beta iota delta [App.truthy get_default] in H.
    destruct (get_project_cpu_avg w (String a s)) as [cpu|];
      [|discriminate H].
    destruct (get_project_mem_avg w (String a s)) as [mem|];
      [|discriminate H].
    destruct (list_running_vms w (String a s)) as [[n vms]|];
      [|discriminate H].
    destruct (get_per_instance_breakdown w (String a s)) as [rows|];
      [|discriminate H].
    injection H as <-.
    split; [reflexivity|]. split; [reflexivity|].
    exists cpu, mem, n, vms, rows. repeat split; reflexivity.
  - injection H as <-. auto.
Qed.

(** A posted form in [demo_world]. *)
Lemma index_result_for_any_project_id_witness :
  exists page : App.Page,
    App.index demo_world [("project_id", "km-prod-eu")] = Ok page
    /\ App.projects page = App.PROJECTS
    /\ List.length App.PROJECTS = 6.
Proof.
  assert (H : exists page, App.index demo_world [("project_id", "km-prod-eu")]
                           = Ok page)
    by (eexists; vm_compute; reflexivity).
  destruct H as (page & Hpage). exists page. split; [exact Hpage|].
  destruct (index_result_for_any_project_id demo_world _ page Hpage)
    as (Hprojects & Hsix & _).
  split; [exact Hprojects|exact Hsix].
Defined.

(** C6, as stated, fails: a project id that is not one of the six known
    identifiers gets its result computed like any other. *)
Lemma index_accepts_unlisted_project_id :
  ~ In "someone-elses-project" App.PROJECTS
  /\ exists (page : App.Page) (r : App.Result),
       App.index demo_world [("project_id", "someone-elses-project")] = Ok page
       /\ App.result page = Some r
       /\ App.project r = "someone-elses-project"
       /\ App.vm_count r = 2.
Proof.
  split.
  - intros H. simpl in H.
    repeat (destruct H as [H|H]; [discriminate H|]). exact H.
  - eexists. eexists. split; [vm_compute; reflexivity|].
    split; [reflexivity|]. split; reflexivity.
Qed.

(** * Further properties of the code *)

(** ** Assignments to a dictionary *)

Section DictKeys.
Variables K V : Type.
Variable eqb : K -> K -> bool.
Hypothesis eqb_spec : forall a b : K, reflect (a = b) (eqb a b).

Lemma get_none_not_key (d : dict K V) (k : K) :
  get eqb d k = None <-> ~ In k (keys d).
Proof.
  induction d as [|[k' v'] d IH]; simpl; [tauto|].
  destruct (eqb_spec k k') as [->|Hk].
  - split; [discriminate|]. intros H. exfalso. apply H. now left.
  - rewrite IH. split; [|tauto]. intros H [Heq|Hin]; [congruence|tauto].
Qed.

Lemma keys_set (d : dict K V) (k : K) (v : V) :
  keys (set eqb d k v)
  = match get eqb d k with
    | Some _ => keys d
    | None => keys d ++ [k]
    end.
Proof.
  induction d as [|[k' v'] d IH]; simpl; [reflexivity|].
  destruct (eqb_spec k k') as [->|Hk]; simpl; [reflexivity|].
  rewrite IH. destruct (get eqb d k); reflexivity.
Qed.

Lemma NoDup_keys_set (d : dict K V) (k : K) (v : V) :
  NoDup (keys d) -> NoDup (keys (set eqb d k v)).
Proof.
  intros Hnd. rewrite keys_set.
  destruct (get eqb d k) eqn:Hg; [exact Hnd|].
  apply get_none_not_key in Hg.
  apply NoDup_app; [exact Hnd|repeat constructor; intros []|].
  intros a Ha [<-|[]]. contradiction.
Qed.

Section Puts.
Variable X : Type.
Variable key : X -> K.
Variable value : X -> option V.

Lemma get_puts (l : list X) :
  forall (d : dict K V) (k : K),
    get eqb (fold_left (put eqb key value) l d) k
    = match last_value eqb key value k l with
      | Some v => Some v
      | None => get eqb d k
      end.
Proof.
  induction l as [|x l IH]; intros d k; simpl; [reflexivity|].
  rewrite IH. destruct (last_value eqb key value k l); [reflexivity|].
  unfold put. destruct (eqb_spec k (key x)) as [->|Hk].
  - destruct (value x); [|reflexivity].
    apply (get_set_same _ _ eqb eqb_spec).
  - destruct (value x); [|reflexivity].
    apply (get_set_other _ _ eqb eqb_spec). exact Hk.
Qed.

Lemma NoDup_puts (l : list X) :
  forall d : dict K V,
    NoDup (keys d) -> NoDup (keys (fold_left (put eqb key value) l d)).
Proof.
  induction l as [|x l IH]; intros d Hd; simpl; [exact Hd|].
  apply IH. unfold put. destruct (value x); [|exact Hd].
  now apply NoDup_keys_set.
Qed.

Lemma last_value_some (l : list X) (k : K) :
  last_value eqb key value k l <> None
  <-> exists x : X, In x l /\ key x = k /\ value x <> None.
Proof.
  induction l as [|x l IH]; simpl.
  - split; [congruence|]. intros (x & [] & _).
  - destruct (last_value eqb key value k l) as [v|] eqn:Hl.
    + split; [|discriminate]. intros _.
      destruct (proj1 IH) as (y & Hy & Hk & Hv); [discriminate|].
      exists y. auto.
    + destruct (eqb_spec k (key x)) as [->|Hk].
      * split.
        -- intros Hv. exists x. auto.
        -- intros (y & [<-|Hy] & Hk & Hv); [exact Hv|].
           exfalso. apply (proj2 IH); [|reflexivity]. exists y. auto.
      * split; [congruence|].
        intros (y & [<-|Hy] & Hk' & Hv); [congruence|].
        apply (proj2 IH). exists y. auto.
Qed.
End Puts.
End DictKeys.

(** ** What [fetch] keeps of the returned series *)

Lemma fetch_step_put (vals : dict (string * string) float) (ts : TimeSeries) :
  fetch_step vals ts = put pair_eqb series_key sample_of vals ts.
Proof.
  unfold fetch_step, put, sample_of, series_key.
  destruct (points ts); reflexivity.
Qed.

Lemma fetch_fold_puts (series : list TimeSeries) :
  forall vals : dict (string * string) float,
    fold_left fetch_step series vals
    = fold_left (put pair_eqb series_key sample_of) series vals.
Proof.
  induction series as [|ts series IH]; intros vals; simpl; [reflexivity|].
  now rewrite fetch_step_put, IH.
Qed.

Lemma fetch_answer (w : World) (project_id : string)
  (interval : TimeInterval) (agg : Aggregation) (metric_type : string) :
  fetch w project_id interval agg metric_type
  = match list_time_series w
            (fetch_request project_id interval agg metric_type) with
    | inl e => Raise e
    | inr series =>
        Ok (fold_left (put pair_eqb series_key sample_of) series [])
    end.
Proof.
  unfold fetch, call_list_time_series, fetch_request.
  destruct (list_time_series w _) as [e|series]; simpl; [reflexivity|].
  now rewrite fetch_fold_puts.
Qed.

(** X1.  In the map that [fetch] returns, the value under an (instance
    id, zone) key is the first point of the last returned series with
    these labels that has a point: a later series replaces an earlier one,
    a series without points changes nothing, and a key that no series
    with points carries is absent. *)
Theorem fetch_keeps_last_series
  (w : World) (project_id : string) (interval : TimeInterval)
  (agg : Aggregation) (metric_type : string) (series : list TimeSeries) :
  list_time_series w (fetch_request project_id interval agg metric_type)
  = inr series ->
  exists vals : dict (string * string) float,
    fetch w project_id interval agg metric_type = Ok vals
    /\ forall k : string * string,
         get pair_eqb vals k
         = last_value pair_eqb series_key sample_of k series.
Proof.
  intros Hs. rewrite fetch_answer, Hs. eexists. split; [reflexivity|].
  intros k. rewrite (get_puts _ _ pair_eqb pair_eqb_spec). simpl.
  destruct (last_value pair_eqb series_key sample_of k series); reflexivity.
Qed.

(** Two series for instance 123: the newer sample 0.2 is kept. *)
Lemma fetch_keeps_last_series_witness :
  exists vals : dict (string * string) float,
    cpu_map repeated_world "km-prod" = Ok vals
    /\ get pair_eqb vals ("123", "us-central1-a") = Some 0.2%float
    /\ get pair_eqb vals ("789", "asia-south1-a") = None.
Proof.
  destruct (fetch_keeps_last_series repeated_world "km-prod"
              (breakdown_interval repeated_world) breakdown_agg CPU_METRIC
              repeated_series eq_refl)
    as (vals & Hvals & Hget).
  exists vals. split; [exact Hvals|].
  split; rewrite Hget; reflexivity.
Defined.

(** X2.  The keys of the map that [fetch] returns are pairwise distinct,
    and they are the label pairs of the returned series that have a
    point. *)
Theorem fetch_keys_distinct
  (w : World) (project_id : string) (interval : TimeInterval)
  (agg : Aggregation) (metric_type : string) (series : list TimeSeries) :
  list_time_series w (fetch_request project_id interval agg metric_type)
  = inr series ->
  exists vals : dict (string * string) float,
    fetch w project_id interval agg metric_type = Ok vals
    /\ NoDup (keys vals)
    /\ forall k : string * string,
         In k (keys vals)
         <-> exists ts : TimeSeries,
               In ts series /\ series_key ts = k /\ points ts <> [].
Proof.
  intros Hs. rewrite fetch_answer, Hs. eexists. split; [reflexivity|].
  split.
  - apply (NoDup_puts _ _ pair_eqb pair_eqb_spec). constructor.
  - intros k.
    pose proof (get_none_not_key _ _ pair_eqb pair_eqb_spec
                  (fold_left (put pair_eqb series_key sample_of) series []) k)
      as Hnone.
    pose proof (get_puts _ _ pair_eqb pair_eqb_spec _ series_key sample_of
                  series [] k) as Hget.
    pose proof (last_value_some _ _ pair_eqb pair_eqb_spec _ series_key
                  sample_of series k) as Hsome.
    simpl in Hget.
    assert (Hpts : forall ts, sample_of ts <> None <-> points ts <> []).
    { intros ts. unfold sample_of. destruct (points ts); split; congruence. }
    split.
    + intros Hin.
      destruct (proj1 Hsome) as (ts & Hts & Hk & Hv).
      * intros Hl. rewrite Hl in Hget. tauto.
      * exists ts. rewrite <- Hpts. auto.
    + intros (ts & Hts & Hk & Hp).
      assert (Hl : last_value pair_eqb series_key sample_of k series <> None).
      { apply Hsome. exists ts. rewrite Hpts. auto. }
      destruct (last_value pair_eqb series_key sample_of k series) as [v|];
        [|congruence].
      destruct (in_dec (fun a b => reflect_dec _ _ (pair_eqb_spec a b)) k
                  (keys (fold_left (put pair_eqb series_key sample_of) series [])))
        as [Hyes|Hno]; [exact Hyes|].
      apply Hnone in Hno. congruence.
Qed.

(** The three series of [repeated_world] give one key. *)
Lemma fetch_keys_distinct_witness :
  exists vals : dict (string * string) float,
    cpu_map repeated_world "km-prod" = Ok vals
    /\ NoDup (keys vals)
    /\ In ("123", "us-central1-a") (keys vals).
Proof.
  destruct (fetch_keys_distinct repeated_world "km-prod"
              (breakdown_interval repeated_world) breakdown_agg CPU_METRIC
              repeated_series eq_refl)
    as (vals & Hvals & Hnd & Hkeys).
  exists vals. split; [exact Hvals|]. split; [exact Hnd|].
  apply Hkeys. exists (series_of "123" "us-central1-a" [0.2%float]).
  split; [simpl; tauto|]. split; [reflexivity|discriminate].
Defined.

(** ** Listings that fail or repeat an id *)

Lemma running_loop_answer (req : Listing) :
  forall result : list VM,
    running_loop req result
    = match first_failure req with
      | Some e => Raise e
      | None =>
          Ok (result
              ++ map vm_of (filter is_running (all_instances (pages_of req))))
      end.
Proof.
  induction req as [e|resp|resp next IH]; intros result; simpl.
  - reflexivity.
  - unfold all_instances. simpl. now rewrite app_nil_r, append_running_spec.
  - rewrite IH. destruct (first_failure next); [reflexivity|].
    rewrite append_running_spec. unfold all_instances. simpl.
    now rewrite filter_app, map_app, app_assoc.
Qed.

Lemma name_loop_answer (req : Listing) :
  forall name_map : dict (option string) Meta,
    name_loop req name_map
    = match first_failure req with
      | Some e => Raise e
      | None =>
          Ok (fold_left record_instance (all_instances (pages_of req)) name_map)
      end.
Proof.
  induction req as [e|resp|resp next IH]; intros name_map; simpl.
  - reflexivity.
  - unfold all_instances. simpl. now rewrite app_nil_r, add_names_spec.
  - rewrite IH. destruct (first_failure next); [reflexivity|].
    rewrite add_names_spec. unfold all_instances. simpl.
    now rewrite fold_left_app.
Qed.

(** X3.  When a request of the listing fails, [list_running_vms] raises
    the exception of that request and returns nothing of the pages
    received before it; otherwise it returns the records of the running
    instances of all pages.  There is no partial result. *)
Theorem list_running_vms_all_or_nothing (w : World) (project_id : string) :
  list_running_vms w project_id
  = match first_failure (aggregatedList w in_list_running_vms project_id) with
    | Some e => Raise e
    | None =>
        let running :=
          filter is_running
            (all_instances
               (pages_of (aggregatedList w in_list_running_vms project_id))) in
        Ok (List.length running, map vm_of running)
    end.
Proof.
  unfold list_running_vms. rewrite running_loop_answer.
  destruct (first_failure (aggregatedList w in_list_running_vms project_id));
    simpl; [reflexivity|].
  now rewrite length_map.
Qed.

(** X4.  The VM record map has pairwise distinct keys, and the record
    under an id is the one of the last listed instance with this id,
    whatever the status of the instances: a later instance with the same
    id replaces an earlier one, and an id that no listed instance has is
    absent. *)
Theorem vm_record_map_last_listed
  (w : World) (project_id : string) :
  first_failure (aggregatedList w in_get_per_instance_breakdown project_id)
  = None ->
  exists name_map : dict (option string) Meta,
    vm_record_map w project_id = Ok name_map
    /\ NoDup (keys name_map)
    /\ forall k : option string,
         get option_eqb name_map k
         = last_value option_eqb inst_id (fun inst => Some (meta_of inst)) k
             (all_instances
                (pages_of
                   (aggregatedList w in_get_per_instance_breakdown project_id))).
Proof.
  intros Hok. unfold vm_record_map. rewrite name_loop_answer, Hok.
  eexists. split; [reflexivity|].
  change record_instance
    with (put option_eqb inst_id (fun inst => Some (meta_of inst))).
  split.
  - apply (NoDup_puts _ _ option_eqb option_eqb_spec). constructor.
  - intros k. rewrite (get_puts _ _ option_eqb option_eqb_spec). simpl.
    destruct (last_value option_eqb inst_id _ k _); reflexivity.
Qed.

(** The stopped instance of [stopped_world] has its record. *)
Lemma vm_record_map_last_listed_witness :
  exists name_map : dict (option string) Meta,
    vm_record_map stopped_world "km-prod" = Ok name_map
    /\ get option_eqb name_map (Some "456") = Some (meta_of db_1)
    /\ get option_eqb name_map (Some "123") = None.
Proof.
  destruct (vm_record_map_last_listed stopped_world "km-prod" eq_refl)
    as (name_map & Hmap & _ & Hget).
  exists name_map. split; [exact Hmap|].
  split; rewrite Hget; reflexivity.
Defined.

(** X5.  [get_per_instance_breakdown] is a function of the three upstream
    answers, consulted in this order: an error of the CPU query is raised
    whatever the other answers are, then an error of the memory query,
    then the error of the listing; when none fails, the result is the join
    of the two fetched maps with the VM record map. *)
Theorem breakdown_error_order (w : World) (project_id : string) :
  get_per_instance_breakdown w project_id
  = match list_time_series w
            (fetch_request project_id (breakdown_interval w) breakdown_agg
               CPU_METRIC) with
    | inl e => Raise e
    | inr cpu_series =>
        match list_time_series w
                (fetch_request project_id (breakdown_interval w) breakdown_agg
                   MEM_METRIC) with
        | inl e => Raise e
        | inr mem_series =>
            match first_failure
                    (aggregatedList w in_get_per_instance_breakdown project_id)
            with
            | Some e => Raise e
            | None =>
                Ok (join_rows
                      (fold_left fetch_step cpu_series [])
                      (fold_left fetch_step mem_series [])
                      (fold_left record_instance
                         (all_instances
                            (pages_of
                               (aggregatedList w in_get_per_instance_breakdown
                                  project_id)))
                         []))
            end
        end
    end.
Proof.
  rewrite breakdown_unfold. unfold cpu_map, mem_map, vm_record_map.
  rewrite !fetch_answer, name_loop_answer.
  destruct (list_time_series w _) as [e|cpu_series]; simpl; [reflexivity|].
  destruct (list_time_series w _) as [e|mem_series]; simpl; [reflexivity|].
  rewrite <- !fetch_fold_puts.
  destruct (first_failure _); reflexivity.
Qed.

(** ** What the command-line report raises and writes *)

(** X6.  [run_for_project] raises an exception in four cases only, and
    then this exception: a project-wide query raises an exception that is
    not a [GoogleAPICallError], the listing raises one that is not an
    [HttpError] (the calls before having returned or been caught), or the
    listing counted at least one running VM and the per-instance
    breakdown raises, whatever the class.  A [GoogleAPICallError] of a
    project-wide query and an [HttpError] of the listing never leave
    it. *)
Theorem run_for_project_raises_iff
  (w : World) (project_id : string) (c : Console) (e : exn) :
  fst (run_for_project w project_id c) = Raise e
  <-> (get_project_cpu_avg w project_id = Raise e
       /\ isinstance_GoogleAPICallError e = false)
      \/ (caught_by isinstance_GoogleAPICallError
            (get_project_cpu_avg w project_id)
          /\ get_project_mem_avg w project_id = Raise e
          /\ isinstance_GoogleAPICallError e = false)
      \/ (caught_by isinstance_GoogleAPICallError
            (get_project_cpu_avg w project_id)
          /\ caught_by isinstance_GoogleAPICallError
               (get_project_mem_avg w project_id)
          /\ list_running_vms w project_id = Raise e
          /\ isinstance_HttpError e = false)
      \/ (caught_by isinstance_GoogleAPICallError
            (get_project_cpu_avg w project_id)
          /\ caught_by isinstance_GoogleAPICallError
               (get_project_mem_avg w project_id)
          /\ (exists (n : nat) (vms : list VM),
                list_running_vms w project_id = Ok (S n, vms))
          /\ get_per_instance_breakdown w project_id = Raise e).
Proof.
  destruct (caught_by_dec isinstance_GoogleAPICallError
              (get_project_cpu_avg w project_id)) as [Hcpu|(e1 & H1 & G1)].
  2: { rewrite (run_uncaught_cpu w project_id c e1 H1 G1). cbn [fst]. split.
       - intros H. injection H as <-. left. auto.
       - intros [[He _]|[(C & _)|[(C & _)|(C & _)]]].
         + rewrite H1 in He. injection He as <-. reflexivity.
         + specialize (C e1 H1). congruence.
         + specialize (C e1 H1). congruence.
         + specialize (C e1 H1). congruence. }
  destruct (caught_by_dec isinstance_GoogleAPICallError
              (get_project_mem_avg w project_id)) as [Hmem|(e2 & H2 & G2)].
  2: { rewrite (run_uncaught_mem w project_id c e2 Hcpu H2 G2). split.
       - intros H. injection H as <-. right. left. auto.
       - intros [[He G]|[(_ & He & _)|[(_ & C & _)|(_ & C & _)]]].
         + specialize (Hcpu e He). congruence.
         + rewrite H2 in He. injection He as <-. reflexivity.
         + specialize (C e2 H2). congruence.
         + specialize (C e2 H2). congruence. }
  destruct (caught_by_dec isinstance_HttpError
              (list_running_vms w project_id)) as [Hlist|(e3 & H3 & G3)].
  2: { rewrite (run_uncaught_list w project_id c e3 Hcpu Hmem H3 G3). split.
       - intros H. injection H as <-. do 2 right. left. auto.
       - intros [[He G]|[(_ & He & G)|[(_ & _ & He & _)
                                      |(_ & _ & (n & vms & He) & _)]]].
         + specialize (Hcpu e He). congruence.
         + specialize (Hmem e He). congruence.
         + rewrite H3 in He. injection He as <-. reflexivity.
         + rewrite H3 in He. discriminate. }
  rewrite run_for_project_report by (repeat split; assumption).
  unfold project_report, table_part. cbn [fst].
  assert (Hno : forall P : Prop,
            (get_project_cpu_avg w project_id = Raise e
             /\ isinstance_GoogleAPICallError e = false)
            \/ (caught_by isinstance_GoogleAPICallError
                  (get_project_cpu_avg w project_id)
                /\ get_project_mem_avg w project_id = Raise e
                /\ isinstance_GoogleAPICallError e = false)
            \/ (caught_by isinstance_GoogleAPICallError
                  (get_project_cpu_avg w project_id)
                /\ caught_by isinstance_GoogleAPICallError
                     (get_project_mem_avg w project_id)
                /\ list_running_vms w project_id = Raise e
                /\ isinstance_HttpError e = false)
            \/ P -> P).
  { intros P [[He G]|[(_ & He & G)|[(_ & _ & He & G)|HP]]]; [| | |exact HP].
    - specialize (Hcpu e He). congruence.
    - specialize (Hmem e He). congruence.
    - specialize (Hlist e He). congruence. }
  destruct (list_running_vms w project_id) as [[[|n] vms]|e'];
    cbn [or_default fst].
  - split; [discriminate|]. intros H. apply Hno in H.
    destruct H as (_ & _ & (n & vms' & H) & _). discriminate.
  - destruct (get_per_instance_breakdown w project_id) as [[|r rows]|e''];
      cbn [fst].
    + split; [discriminate|]. intros H. apply Hno in H.
      destruct H as (_ & _ & _ & H). discriminate.
    + split; [discriminate|]. intros H. apply Hno in H.
      destruct H as (_ & _ & _ & H). discriminate.
    + split.
      * intros H. injection H as <-. do 3 right. eauto 8.
      * intros H. apply Hno in H. destruct H as (_ & _ & _ & H).
        injection H as <-. reflexivity.
  - split; [discriminate|]. intros H. apply Hno in H.
    destruct H as (_ & _ & (n & vms' & H) & _). discriminate.
Qed.

(** In [retry_world] the first project-wide query ends the run, and
    nothing is printed. *)
Lemma retry_error_leaves_the_run :
  main retry_world all_projects empty_console
  = (Raise (OtherError "RetryError: Deadline of 60.0s exceeded"), empty_console).
Proof. vm_compute. reflexivity. Qed.

Lemma for_each_stops (w : World) (before after : list string)
  (pid : string) (e : exn) (out : list entry) :
  (forall p : string, In p before -> contained w p /\ breakdown_returns w p) ->
  (forall c : Console, run_for_project w pid c = (Raise e, emit c out)) ->
  forall c : Console,
    for_each (before ++ pid :: after) (fun p => run_for_project w p) c
    = (Raise e,
       emit c (flat_map (fun p => snd (project_report w p)) before ++ out)).
Proof.
  intros Hbefore Hpid.
  induction before as [|p before IH]; intros c; cbn [app for_each flat_map].
  - erewrite io_bind_raise by apply Hpid. reflexivity.
  - erewrite io_bind_ok.
    + rewrite IH by (intros q Hq; apply Hbefore; now right).
      rewrite emit_emit, app_assoc. reflexivity.
    + rewrite run_for_project_report by (apply Hbefore; now left).
      rewrite (breakdown_returns_ok w p) by (apply Hbefore; now left).
      reflexivity.
Qed.

(** X7.  The loop over the projects stops at the first project whose
    per-instance breakdown is called and raises: the projects before it
    are reported in order, the failing project is reported up to the
    title of its per-instance part, the error of its breakdown is raised
    and nothing is printed for the projects after it.  (The guarded calls
    of these projects raise nothing but their API errors.) *)
Theorem batch_stops_at_first_breakdown_error
  (w : World) (args : Args) (c : Console)
  (before after : list string) (pid : string) (e : exn) :
  all args = true ->
  batch args = before ++ pid :: after ->
  (forall p : string, In p before -> contained w p /\ breakdown_returns w p) ->
  caught_by isinstance_GoogleAPICallError (get_project_cpu_avg w pid) ->
  caught_by isinstance_GoogleAPICallError (get_project_mem_avg w pid) ->
  fst (or_default (list_running_vms w pid) (0, [])) <> 0 ->
  get_per_instance_breakdown w pid = Raise e ->
  main w args c
  = (Raise e,
     emit c
       (flat_map (fun p => snd (project_report w p)) before
        ++ caught "[!] CPU query failed for " pid (get_project_cpu_avg w pid)
        ++ caught "[!] Memory query failed for " pid (get_project_mem_avg w pid)
        ++ summary_lines pid
             (or_default (get_project_cpu_avg w pid) nan)
             (or_default (get_project_mem_avg w pid) nan)
             (fst (or_default (list_running_vms w pid) (0, [])))
        ++ [Printed (nl ++ "-- Per-instance (avg of last 10m) --")%string])).
Proof.
  intros Hall Hbatch Hbefore Hcpu Hmem Hcount Hraise.
  unfold main. unfold batch in Hbatch. rewrite Hall in *. rewrite Hbatch.
  apply for_each_stops; [exact Hbefore|]. intros c'.
  assert (Hlist : caught_by isinstance_HttpError (list_running_vms w pid)).
  { intros e' He'. rewrite He' in Hcount. now elim Hcount. }
  rewrite run_for_project_report by (repeat split; assumption).
  unfold project_report, table_part. rewrite Hraise.
  destruct (list_running_vms w pid) as [[[|n] vms]|e'];
    cbn [or_default fst snd caught app] in *; [congruence|reflexivity|congruence].
Qed.

(** In [demo_world] the batch stops at the second project. *)
Lemma batch_stops_at_first_breakdown_error_witness :
  fst (main demo_world all_projects empty_console)
  = Raise (GoogleAPICallError "503 The service is currently unavailable.")
  /\ stdout (snd (main demo_world all_projects empty_console))
     = snd (project_report demo_world "km-prod")
       ++ [ Printed "[!] CPU query failed for km-prod-cn-443607: 503 The service is currently unavailable.";
            Printed "[!] Memory query failed for km-prod-cn-443607: 503 The service is currently unavailable." ]
       ++ summary_lines "km-prod-cn-443607" nan nan 2
       ++ [ Printed (nl ++ "-- Per-instance (avg of last 10m) --")%string ].
Proof.
  assert (Hbefore : forall p, In p ["km-prod"] ->
                      contained demo_world p /\ breakdown_returns demo_world p).
  { intros p [<-|[]]. split.
    - apply demo_world_contained. simpl. tauto.
    - right. eexists. vm_compute. reflexivity. }
  assert (Hcont : contained demo_world "km-prod-cn-443607")
    by (apply demo_world_contained; simpl; tauto).
  destruct Hcont as (Hcpu & Hmem & _).
  assert (Hcount : fst (or_default (list_running_vms demo_world "km-prod-cn-443607")
                          (0, [])) <> 0)
    by (vm_compute; discriminate).
  rewrite (batch_stops_at_first_breakdown_error
             demo_world all_projects empty_console
             ["km-prod"] ["km-prod-eu"; "km-prod-in"; "km-prod-us"; "km-dev-434106"]
             "km-prod-cn-443607"
             (GoogleAPICallError "503 The service is currently unavailable.")
             eq_refl eq_refl Hbefore Hcpu Hmem Hcount eq_refl).
  split; [reflexivity|]. vm_compute. reflexivity.
Defined.

(** X8.  When the guarded calls raise nothing but their API errors and
    the listing raises its [HttpError] or counts no running VM, the
    report of the project is complete after the summary:
    [run_for_project] returns normally and prints the messages of the
    caught errors and the five summary lines, whatever the per-instance
    queries would answer. *)
Theorem no_running_vm_prints_summary_only
  (w : World) (project_id : string) (c : Console) :
  contained w project_id ->
  fst (or_default (list_running_vms w project_id) (0, [])) = 0 ->
  run_for_project w project_id c
  = (Ok tt,
     emit c
       (caught "[!] CPU query failed for " project_id
          (get_project_cpu_avg w project_id)
        ++ caught "[!] Memory query failed for " project_id
             (get_project_mem_avg w project_id)
        ++ caught "[!] VM list failed for " project_id
             (list_running_vms w project_id)
        ++ summary_lines project_id
             (or_default (get_project_cpu_avg w project_id) nan)
             (or_default (get_project_mem_avg w project_id) nan) 0)).
Proof.
  intros Hcont Hzero. rewrite run_for_project_report by exact Hcont.
  unfold project_report, table_part. rewrite Hzero. cbn [fst snd].
  now rewrite app_nil_r.
Qed.

(** The second project of [outage_world]: every call raises its API
    error, the summary is printed with the defaults. *)
Lemma no_running_vm_prints_summary_only_witness :
  run_for_project outage_world "km-prod-cn-443607" empty_console
  = (Ok tt,
     {| stdout :=
          [ Printed "[!] CPU query failed for km-prod-cn-443607: 503 The service is currently unavailable.";
            Printed "[!] Memory query failed for km-prod-cn-443607: 503 The service is currently unavailable.";
            Printed "[!] VM list failed for km-prod-cn-443607: 503 Backend Error" ]
          ++ summary_lines "km-prod-cn-443607" nan nan 0;
        stderr := [] |}).
Proof.
  assert (Hcont : contained outage_world "km-prod-cn-443607")
    by (apply outage_world_contained; simpl; tauto).
  rewrite (no_running_vm_prints_summary_only
             outage_world "km-prod-cn-443607" empty_console Hcont eq_refl).
  reflexivity.
Defined.

(** ** The web form lets errors through *)

(** X9.  For a posted project id, [index] raises exactly the first error
    among its four calls, in the order CPU query, memory query, instance
    listing, per-instance breakdown: nothing is caught. *)
Theorem index_raises_first_error
  (w : World) (form : dict string string) (project_id : string) (e : exn) :
  get String.eqb form "project_id" = Some project_id ->
  project_id <> EmptyString ->
  App.index w form = Raise e
  <-> get_project_cpu_avg w project_id = Raise e
      \/ ((exists v, get_project_cpu_avg w project_id = Ok v)
          /\ get_project_mem_avg w project_id = Raise e)
      \/ ((exists v, get_project_cpu_avg w project_id = Ok v)
          /\ (exists v, get_project_mem_avg w project_id = Ok v)
          /\ list_running_vms w project_id = Raise e)
      \/ ((exists v, get_project_cpu_avg w project_id = Ok v)
          /\ (exists v, get_project_mem_avg w project_id = Ok v)
          /\ (exists v, list_running_vms w project_id = Ok v)
          /\ get_per_instance_breakdown w project_id = Raise e).
Proof.
  intros Hform Hne. unfold App.index. rewrite Hform.
  destruct project_id as [|a s]; [congruence|].
  cbv beta iota delta [App.truthy get_default].
  destruct (get_project_cpu_avg w (String a s)) as [v1|e1];
    destruct (get_project_mem_avg w (String a s)) as [v2|e2];
    destruct (list_running_vms w (String a s)) as [[n vms]|e3];
    destruct (get_per_instance_breakdown w (String a s)) as [rows|e4];
    cbn [Py.bind].
  all: split;
    [ intros H; try discriminate H; injection H as <-; eauto 10
    | intros [H|[[[v Hv] H]|[[[v Hv] [[v' Hv'] H]]
                            |[[v Hv] [[v' Hv'] [[v'' Hv''] H]]]]]];
      try discriminate; try (injection H as <-; reflexivity) ].
Qed.

(** In [demo_world] the error of the monitoring service reaches the
    caller of [index]. *)
Lemma index_raises_first_error_witness :
  App.index demo_world [("project_id", "km-prod-cn-443607")]
  = Raise (GoogleAPICallError "503 The service is currently unavailable.").
Proof.
  apply (proj2 (index_raises_first_error demo_world
                  [("project_id", "km-prod-cn-443607")] "km-prod-cn-443607"
                  (GoogleAPICallError "503 The service is currently unavailable.")
                  eq_refl ltac:(discriminate))).
  left. reflexivity.
Defined.

(** ** The order of the table *)

Section Insertion.
Variables A K : Type.
Variable key : A -> K.
Variable lt : K -> K -> bool.
Hypothesis lt_asym : forall a b : K, lt a b = true -> lt b a = false.

Let R (a b : A) : Prop := lt (key b) (key a) = false.

Lemma insert_permutation (x : A) (l : list A) :
  Permutation (x :: l) (insert key lt x l).
Proof.
  induction l as [|y l IH]; simpl; [reflexivity|].
  destruct (lt (key x) (key y)); [reflexivity|].
  rewrite perm_swap. now constructor.
Qed.

Lemma sorted_permutation (l : list A) : Permutation l (sorted key lt l).
Proof.
  unfold sorted.
  assert (H : forall acc, Permutation (acc ++ l)
                            (fold_left (fun acc x => insert key lt x acc) l acc)).
  { induction l as [|x l IH]; intros acc; simpl.
    - now rewrite app_nil_r.
    - rewrite <- IH. rewrite <- Permutation_middle.
      change (x :: acc ++ l) with ((x :: acc) ++ l).
      apply Permutation_app_tail. apply insert_permutation. }
  exact (H []).
Qed.

Lemma insert_in_order (x : A) (l : list A) :
  Sorted R l -> Sorted R (insert key lt x l).
Proof.
  induction l as [|y l IH]; intros Hs; simpl.
  - repeat constructor.
  - destruct (lt (key x) (key y)) eqn:Hxy.
    + constructor; [exact Hs|]. constructor. unfold R. now apply lt_asym.
    + inversion Hs as [|? ? Hl Hhd]; subst.
      constructor; [now apply IH|].
      destruct l as [|z l]; simpl.
      * constructor. exact Hxy.
      * destruct (lt (key x) (key z)); constructor; [exact Hxy|].
        now inversion Hhd.
Qed.

Lemma sorted_in_order (l : list A) : Sorted R (sorted key lt l).
Proof.
  unfold sorted.
  assert (H : forall acc, Sorted R acc ->
                Sorted R (fold_left (fun acc x => insert key lt x acc) l acc)).
  { induction l as [|x l IH]; intros acc Hacc; simpl; [exact Hacc|].
    apply IH. now apply insert_in_order. }
  apply H. constructor.
Qed.
End Insertion.

Lemma string_ltb_asym (a b : string) :
  String.ltb a b = true -> String.ltb b a = false.
Proof.
  unfold String.ltb. rewrite (String.compare_antisym b a).
  destruct (String.compare a b); simpl; congruence.
Qed.

Lemma pair_ltb_asym (a b : string * string) :
  pair_ltb a b = true -> pair_ltb b a = false.
Proof.
  unfold pair_ltb. rewrite (String.eqb_sym (fst b) (fst a)).
  destruct (String.eqb (fst a) (fst b)); apply string_ltb_asym.
Qed.

(** X10.  The per-instance table prints every row of the breakdown once,
    in an order in which no line is followed by a line with a smaller
    (zone, instance name) key.  (The table is reached: the project-wide
    queries have returned or raised their API error, running VMs were
    counted and the breakdown has returned rows.) *)
Theorem table_is_sorted_permutation
  (w : World) (project_id : string) (c : Console)
  (n : nat) (vms : list VM) (r : Row) (rows : list Row) :
  caught_by isinstance_GoogleAPICallError (get_project_cpu_avg w project_id) ->
  caught_by isinstance_GoogleAPICallError (get_project_mem_avg w project_id) ->
  list_running_vms w project_id = Ok (S n, vms) ->
  get_per_instance_breakdown w project_id = Ok (r :: rows) ->
  exists printed : list Row,
    Permutation (r :: rows) printed
    /\ Sorted in_order printed
    /\ run_for_project w project_id c
       = (Ok tt,
          emit c
            (caught "[!] CPU query failed for " project_id
               (get_project_cpu_avg w project_id)
             ++ caught "[!] Memory query failed for " project_id
                  (get_project_mem_avg w project_id)
             ++ summary_lines project_id
                  (or_default (get_project_cpu_avg w project_id) nan)
                  (or_default (get_project_mem_avg w project_id) nan) (S n)
             ++ [ Printed (nl ++ "-- Per-instance (avg of last 10m) --")%string;
                  Printed table_header ]
             ++ map (fun r => Printed (table_line r)) printed)).
Proof.
  intros Hcpu Hmem Hlist Hrows. exists (sorted sort_key pair_ltb (r :: rows)).
  split; [apply sorted_permutation|].
  split; [apply (sorted_in_order _ _ sort_key pair_ltb pair_ltb_asym)|].
  rewrite run_for_project_report.
  - unfold project_report, table_part. rewrite Hlist, Hrows. reflexivity.
  - split; [exact Hcpu|]. split; [exact Hmem|].
    intros e He. rewrite Hlist in He. discriminate.
Qed.

(** The two rows of [demo_world], printed with the zone in Asia first. *)
Lemma table_is_sorted_permutation_witness :
  exists printed : list Row,
    Permutation demo_rows printed
    /\ Sorted in_order printed
    /\ stdout (snd (run_for_project demo_world "km-prod" empty_console))
       = summary_lines "km-prod" 0.25%float 61.5%float 2
         ++ [ Printed (nl ++ "-- Per-instance (avg of last 10m) --")%string;
              Printed table_header ]
         ++ map (fun r => Printed (table_line r)) printed.
Proof.
  assert (Hrows : get_per_instance_breakdown demo_world "km-prod"
                  = Ok demo_rows) by (vm_compute; reflexivity).
  assert (Hcont : contained demo_world "km-prod")
    by (apply demo_world_contained; simpl; tauto).
  destruct Hcont as (Hcpu & Hmem & _).
  destruct (table_is_sorted_permutation demo_world "km-prod" empty_console
              1 [vm_of web_1; vm_of api_1] _ _ Hcpu Hmem eq_refl Hrows)
    as (printed & Hperm & Hsorted & Hrun).
  exists printed. split; [exact Hperm|]. split; [exact Hsorted|].
  rewrite Hrun. reflexivity.
Defined.

(** ** The columns of the table *)

Lemma length_append (a b : string) :
  String.length (a ++ b) = String.length a + String.length b.
Proof. induction a as [|x a IH]; simpl; [reflexivity|now rewrite IH]. Qed.

Lemma length_spaces (n : nat) : String.length (spaces n) = n.
Proof. induction n as [|n IH]; simpl; [reflexivity|now rewrite IH]. Qed.

Lemma length_take (n : nat) (s : string) :
  String.length (take n s) = Nat.min n (String.length s).
Proof.
  unfold take. revert s.
  induction n as [|n IH]; intros s; destruct s as [|x s]; simpl;
    try reflexivity.
  now rewrite IH.
Qed.

Lemma length_ljust (n : nat) (s : string) :
  String.length (ljust n s) = Nat.max n (String.length s).
Proof.
  unfold ljust. rewrite length_append, length_spaces.
  destruct (Nat.le_ge_cases n (String.length s)) as [H|H].
  - rewrite (proj2 (Nat.sub_0_le _ _) H), Nat.max_r by exact H.
    apply Nat.add_0_r.
  - rewrite Nat.max_l by exact H. rewrite Nat.add_comm. now apply Nat.sub_add.
Qed.

Lemma length_rjust (n : nat) (s : string) :
  String.length (rjust n s) = Nat.max n (String.length s).
Proof.
  unfold rjust. rewrite length_append, length_spaces.
  destruct (Nat.le_ge_cases n (String.length s)) as [H|H].
  - rewrite (proj2 (Nat.sub_0_le _ _) H), Nat.max_r by exact H. reflexivity.
  - rewrite Nat.max_l by exact H. now apply Nat.sub_add.
Qed.

Lemma length_column (n : nat) (s : string) :
  String.length (ljust n (take n s)) = n.
Proof.
  rewrite length_ljust, length_take. apply Nat.max_l. apply Nat.le_min_l.
Qed.

Lemma take_short (n : nat) (s : string) :
  String.length s <= n -> take n s = s.
Proof.
  unfold take. revert s.
  induction n as [|n IH]; intros s Hs; destruct s as [|x s]; simpl in *;
    try reflexivity.
  - inversion Hs.
  - rewrite IH; [reflexivity|]. now apply le_S_n.
Qed.

(** X11.  In a line of the table the name, the zone and the machine type
    fill exactly 32, 15 and 20 characters (cut when longer, padded with
    spaces when shorter), so the CPU column starts at character 70; a
    line is as long as the header, 87 characters, and longer only by the
    characters a percentage needs beyond 8. *)
Theorem table_line_columns (r : Row) :
  String.length (ljust 32 (take 32 (instance r))) = 32
  /\ String.length (ljust 15 (take 15 (zone r))) = 15
  /\ String.length (ljust 20 (take 20 (machineType r))) = 20
  /\ String.length table_header = 87
  /\ String.length (table_line r)
     = 71
       + Nat.max 8 (String.length (format_2f (cpu_utilization_pct r)))
       + Nat.max 8 (String.length (format_2f (memory_used_pct r))).
Proof.
  split; [apply length_column|]. split; [apply length_column|].
  split; [apply length_column|]. split; [reflexivity|].
  unfold table_line.
  rewrite !length_append, !length_column, !length_rjust.
  cbn [String.length]. lia.
Qed.

(** ** The last path segment *)

Section SegmentsMore.
Variable sep : ascii.

Lemma split_single (s : string) : no_sep sep s -> split sep s = [s].
Proof.
  unfold no_sep. induction s as [|x s IH]; intros Hs; simpl; [reflexivity|].
  simpl in Hs. destruct (Ascii.eqb_spec x sep) as [->|Hx]; [tauto|].
  rewrite IH by tauto. reflexivity.
Qed.

Lemma split_app_sep (a b : string) :
  split sep (a ++ String sep b) = split sep a ++ split sep b.
Proof.
  induction a as [|x a IH]; simpl.
  - now rewrite Ascii.eqb_refl.
  - destruct (Ascii.eqb x sep); [now rewrite IH|].
    rewrite IH. pose proof (split_not_nil sep a) as Hn.
    destruct (split sep a) as [|h t]; [congruence|reflexivity].
Qed.
End SegmentsMore.

(** X12.  The display value of a zone or machine type path is determined
    by the path: it is the only string without a slash that the path ends
    with, directly after a slash or as the whole path.  A path without a
    slash is displayed as it is, and a path that ends in a slash is
    displayed as the empty string. *)
Theorem last_segment_unique (path seg : string) :
  is_last_segment path seg -> last_segment path = seg.
Proof.
  intros (Hseg & pre & -> & [->|(p & ->)]); unfold last_segment.
  - simpl. now rewrite (split_single "/" seg Hseg).
  - rewrite string_app_assoc. simpl.
    rewrite split_app_sep, (split_single "/" seg Hseg).
    now rewrite last_last.
Qed.

(** The zone of [web_1], and a path that ends in a slash. *)
Lemma last_segment_unique_witness :
  last_segment (zone_url "km-prod" "us-central1-a") = "us-central1-a"
  /\ last_segment "zones/" = EmptyString.
Proof.
  split.
  - apply last_segment_unique. split.
    + intros H. vm_compute in H.
      repeat (destruct H as [H|H]; [discriminate H|]). exact H.
    + exists "https://www.googleapis.com/compute/v1/projects/km-prod/zones/".
      split; [reflexivity|]. right.
      exists "https://www.googleapis.com/compute/v1/projects/km-prod/zones".
      reflexivity.
  - apply last_segment_unique. split; [intros []|].
    exists "zones/". split; [reflexivity|]. right. now exists "zones".
Defined.

(** ** No data *)

Lemma cpu_avg_no_points (w : World) (project_id : string)
  (series : list TimeSeries) :
  list_time_series w (_ts_request_common w project_id CPU_METRIC) = inr series ->
  Forall (fun ts => points ts = []) series ->
  get_project_cpu_avg w project_id = Ok nan.
Proof.
  intros Hs Hall. unfold get_project_cpu_avg.
  rewrite project_avg_first_available, Hs.
  now rewrite first_available_no_points.
Qed.

(** X13.  When the project-wide CPU query returns no series, or only
    series without points, both front ends show the text N/A for the CPU
    average: the command-line summary prints it (the summary is reached
    when the memory query and the listing raise nothing but their API
    errors), and the web page carries it in its result. *)
Theorem no_cpu_data_shows_na
  (w : World) (project_id : string) (series : list TimeSeries) :
  list_time_series w (_ts_request_common w project_id CPU_METRIC) = inr series ->
  Forall (fun ts => points ts = []) series ->
  (forall c : Console,
     caught_by isinstance_GoogleAPICallError
       (get_project_mem_avg w project_id) ->
     caught_by isinstance_HttpError (list_running_vms w project_id) ->
     In (Printed "Average CPU Utilization: N/A")
       (stdout (snd (run_for_project w project_id c))))
  /\ (forall (form : dict string string) (page : App.Page) (r : App.Result),
        get String.eqb form "project_id" = Some project_id ->
        App.index w form = Ok page ->
        App.result page = Some r ->
        App.cpu_avg r = "N/A").
Proof.
  intros Hs Hall.
  pose proof (cpu_avg_no_points w project_id series Hs Hall) as Hcpu.
  split.
  - intros c Hmem Hlist. rewrite run_for_project_report.
    2: { split; [|split; assumption]. intros e He. rewrite Hcpu in He.
         discriminate. }
    unfold project_report.
    cbn [snd emit stdout]. rewrite Hcpu. cbn [caught or_default].
    rewrite !in_app_iff. right. do 3 right. left. simpl. auto.
  - intros form page r Hform. unfold App.index. rewrite Hform.
    destruct project_id as [|a s].
    + cbn. intros H. injection H as <-. discriminate.
    + cbv beta iota delta [App.truthy get_default]. rewrite Hcpu.
      destruct (get_project_mem_avg w (String a s)) as [mem|];
        [|discriminate].
      destruct (list_running_vms w (String a s)) as [[n vms]|];
        [|discriminate].
      destruct (get_per_instance_breakdown w (String a s)) as [rows|];
        [|discriminate].
      cbn [Py.bind]. intros H. injection H as <-.
      cbn. intros H. injection H as <-. reflexivity.
Qed.

(** A project without any series. *)
Lemma no_cpu_data_shows_na_witness :
  In (Printed "Average CPU Utilization: N/A")
    (stdout (snd (run_for_project idle_world "km-prod-eu" empty_console)))
  /\ exists page : App.Page,
       App.index idle_world [("project_id", "km-prod-eu")] = Ok page.
Proof.
  destruct (no_cpu_data_shows_na idle_world "km-prod-eu" [] eq_refl
              (Forall_nil _)) as [Hcli _].
  split; [|eexists; vm_compute; reflexivity].
  apply Hcli; intros e He; discriminate He.
Defined.

(** ** No CPU sample *)

Lemma fetch_no_points (series : list TimeSeries) :
  Forall (fun ts => points ts = []) series ->
  forall vals : dict (string * string) float,
    fold_left fetch_step series vals = vals.
Proof.
  induction 1 as [|ts series Hts _ IH]; intros vals; simpl; [reflexivity|].
  unfold fetch_step at 2. rewrite Hts. apply IH.
Qed.

(** X14.  When running VMs were counted, the per-instance CPU query
    returns no series with a point, the memory query returns and the
    listing of the breakdown does not fail, the breakdown returns the
    empty list, whatever memory samples and instances the answers hold;
    the report then has no table: it prints the hint that no per-instance
    metrics were found and returns normally.  (The project-wide queries
    have returned or raised their API error.) *)
Theorem no_cpu_sample_prints_hint
  (w : World) (project_id : string) (c : Console)
  (n : nat) (vms : list VM) (cpu_series mem_series : list TimeSeries) :
  caught_by isinstance_GoogleAPICallError (get_project_cpu_avg w project_id) ->
  caught_by isinstance_GoogleAPICallError (get_project_mem_avg w project_id) ->
  list_running_vms w project_id = Ok (S n, vms) ->
  list_time_series w
    (fetch_request project_id (breakdown_interval w) breakdown_agg CPU_METRIC)
  = inr cpu_series ->
  Forall (fun ts => points ts = []) cpu_series ->
  list_time_series w
    (fetch_request project_id (breakdown_interval w) breakdown_agg MEM_METRIC)
  = inr mem_series ->
  first_failure (aggregatedList w in_get_per_instance_breakdown project_id)
  = None ->
  get_per_instance_breakdown w project_id = Ok []
  /\ fst (run_for_project w project_id c) = Ok tt
  /\ In (Printed "No per-instance metrics found (ensure Ops Agent is installed).")
       (stdout (snd (run_for_project w project_id c))).
Proof.
  intros Hcavg Hmavg Hlist Hcpu Hnone Hmem Hinv.
  assert (Hrows : get_per_instance_breakdown w project_id = Ok []).
  { rewrite breakdown_unfold. unfold cpu_map, mem_map, vm_record_map.
    rewrite !fetch_answer, name_loop_answer, Hcpu, Hmem, Hinv,
      <- !fetch_fold_puts.
    rewrite (fetch_no_points cpu_series Hnone). reflexivity. }
  split; [exact Hrows|].
  rewrite run_for_project_report.
  2: { split; [exact Hcavg|]. split; [exact Hmavg|].
       intros e He. rewrite Hlist in He. discriminate. }
  unfold project_report, table_part.
  rewrite Hlist, Hrows. cbn [or_default fst snd emit stdout].
  split; [reflexivity|].
  rewrite !in_app_iff. do 4 right. simpl. auto.
Qed.

(** In [memory_only_world] two VMs run and only memory is reported. *)
Lemma no_cpu_sample_prints_hint_witness :
  get_per_instance_breakdown memory_only_world "km-prod" = Ok []
  /\ In (Printed "No per-instance metrics found (ensure Ops Agent is installed).")
       (stdout (snd (run_for_project memory_only_world "km-prod" empty_console))).
Proof.
  destruct (no_cpu_sample_prints_hint memory_only_world "km-prod" empty_console
              1 [vm_of web_1; vm_of api_1]
              [series_of "123" "us-central1-a" []]
              [series_of "123" "us-central1-a" [37.256%float]]
              ltac:(intros e He; discriminate He)
              ltac:(intros e He; discriminate He)
              eq_refl eq_refl
              (Forall_cons (series_of "123" "us-central1-a" [])
                 (eq_refl : points (series_of "123" "us-central1-a" []) = [])
                 (Forall_nil _))
              eq_refl eq_refl)
    as (Hrows & _ & Hin).
  split; assumption.
Defined.
